(** * BitcoinTask: the sampling loop and the report statistics

    A shallow embedding of [src/bitcoinTask.py] ([fetch_bpi],
    [convert_utc_to_timezone], [collect_data], the statistics part of
    [graph_plot]) and of [src/emailBodyGen.py] ([get_email_body]).

    Python floats are IEEE-754 binary64 numbers and are modelled by Rocq's
    primitive floats; the numpy reductions the code calls ([np.mean],
    [np.std]) are written out as numpy computes them. *)

From Stdlib Require Import List String ZArith Lia Bool.
From Stdlib Require Import Floats.
Import ListNotations.
Open Scope string_scope.

(** ** Python runtime: exceptions, logging, and a state/exception monad *)

(** A Python exception, by its class name. *)
Definition exn := string.

Inductive log_entry :=
| LogInfo (msg : string)
| LogError (msg : string).

(** The outcome of a computation: a returned value, a raised exception, or
    [NoFuel] when a [while] loop ran longer than the iteration budget given
    to it (the model of a loop that does not stop). *)
Inductive result (A : Type) :=
| Ret (a : A)
| Raise (e : exn)
| NoFuel.
Arguments Ret {A} a.
Arguments Raise {A} e.
Arguments NoFuel {A}.

(** Computations thread the log (the file handler of [logging]). *)
Definition M (A : Type) := list log_entry -> result A * list log_entry.

Definition ret {A} (a : A) : M A := fun lg => (Ret a, lg).
Definition raise {A} (e : exn) : M A := fun lg => (Raise e, lg).
Definition bind {A B} (m : M A) (k : A -> M B) : M B :=
  fun lg => match m lg with
            | (Ret a, lg') => k a lg'
            | (Raise e, lg') => (Raise e, lg')
            | (NoFuel, lg') => (NoFuel, lg')
            end.
Definition log (e : log_entry) : M unit := fun lg => (Ret tt, (lg ++ [e])%list).

(** [try: body  except Exception as e: handler] *)
Definition try_except {A} (body : M A) (handler : exn -> M A) : M A :=
  fun lg => match body lg with
            | (Raise e, lg') => handler e lg'
            | r => r
            end.

Notation "x <- m ;; k" := (bind m (fun x => k))
  (at level 61, m at next level, right associativity).
Notation "m ;; k" := (bind m (fun _ => k)) (at level 61, right associativity).

(** Run a computation from an empty log. *)
Definition run {A} (m : M A) : result A * list log_entry := m [].

(** The Python exception classes the code can hit. *)
Definition TypeError : exn := "TypeError".
Definition ValueError : exn := "ValueError".
Definition IndexError : exn := "IndexError".

(** [seq[i]] on a Python list. *)
Definition getitem {A} (xs : list A) (i : nat) : M A :=
  match nth_error xs i with
  | Some x => ret x
  | None => raise IndexError
  end.

(** ** [fetch_bpi] *)

(** What [requests.get(url)] followed by [raise_for_status()], [.json()] and
    the lookups of [bpi.USD.rate_float] and [time.updatedISO] produce: the
    two fields, or an exception somewhere on that path (connection error,
    HTTP error status, malformed JSON, missing key). The JSON value of
    [rate_float] is [None] when it is [null]. *)
Inductive api_reply :=
| ApiOk (price : option float) (date : string)
| ApiError.

(** The Python value [fetch_bpi] returns: the dictionary
    [{"date": date, "price": price}] or the tuple [(None, None)]. *)
Inductive fetch_ret :=
| FetchDict (date : string) (price : option float)
| FetchNoneNone.

Definition fetch_bpi (reply : api_reply) : M fetch_ret :=
  match reply with
  | ApiOk price date =>
      log (LogInfo "Fetched Bitcoin price from API") ;;
      ret (FetchDict date price)
  | ApiError =>
      log (LogError "Error fetching Bitcoin price") ;;
      ret FetchNoneNone
  end.

(** [result["date"], result["price"]]: subscripting the tuple
    [(None, None)] with a string raises [TypeError]
    ("tuple indices must be integers or slices, not str"). *)
Definition get_date_price (r : fetch_ret) : M (string * option float) :=
  match r with
  | FetchDict date price => ret (date, price)
  | FetchNoneNone => raise TypeError
  end.

(** ** [convert_utc_to_timezone] *)

(** [tz_convert] is [datetime.fromisoformat] followed by [astimezone] in the
    target zone (pytz), given as a capability: [Some t] with the localized
    time, [None] when parsing or conversion raised. The function itself
    catches, logs and returns [None]. *)
Definition convert_utc_to_timezone {T : Type}
  (tz_convert : string -> option T) (utc_time_str : string) : M (option T) :=
  match tz_convert utc_time_str with
  | Some t => ret (Some t)
  | None => log (LogError "Failed to convert time") ;; ret None
  end.

(** ** [collect_data] *)

(** One element of the collected list: [{"time": ..., "price": price}]. *)
Record sample (T : Type) := mk_sample { s_time : option T; s_price : float }.
Arguments mk_sample {T} s_time s_price.
Arguments s_time {T} s.
Arguments s_price {T} s.

Section CollectData.
Context {T : Type}.
(** The time zone conversion capability (see [convert_utc_to_timezone]). *)
Variable tz_convert : string -> option T.
(** The reply of the price API on the [k]-th tick of the loop. *)
Variable replies : nat -> api_reply.

(** The [while] loop. The clock is [time.time() - start_time] in seconds;
    a tick takes exactly its [time.sleep(sleet_in_min * 60)], fetching
    takes no time. [k] counts the ticks, [data] is the list built so far
    ([data.append] keeps the samples in collection order). *)
Fixpoint collect_loop (fuel : nat) (sleet_in_min total_time : nat)
    (k elapsed : nat) (data : list (sample T)) : M (list (sample T)) :=
  match fuel with
  | O => fun lg => (NoFuel, lg)
  | S fuel' =>
      if Nat.ltb elapsed total_time then
        result <- fetch_bpi (replies k) ;;
        dp <- get_date_price result ;;
        let '(date, price) := dp in
        data' <- (match price with
                  | Some p =>
                      t <- convert_utc_to_timezone tz_convert date ;;
                      ret (data ++ [mk_sample t p])%list
                  | None => ret data
                  end) ;;
        collect_loop fuel' sleet_in_min total_time (S k)
          (elapsed + sleet_in_min * 60) data'
      else ret data
  end.

(** [collect_data(sleet_in_min, run_time_min, target_timezone, url)]:
    the whole body runs in [try]; any exception is logged and the function
    returns [None]. The loop is given one iteration per second of the run
    and one more, enough whenever [sleet_in_min > 0]. *)
Definition collect_data (sleet_in_min run_time_min : nat)
    : M (option (list (sample T))) :=
  let total_time := run_time_min * 60 in
  try_except
    (log (LogInfo "starting to collect data") ;;
     data <- collect_loop (S total_time) sleet_in_min total_time 0 0 [] ;;
     log (LogInfo "Finished collecting data") ;;
     ret (Some data))
    (fun _ => log (LogError "Failed collect data") ;; ret None).
End CollectData.

(** ** Python builtins on lists of floats *)

Open Scope float_scope.

(** [min(xs)] and [max(xs)] (CPython's [min_max]): the first item is the
    current one, a later item replaces it when [item < current] (for [min])
    or [item > current] (for [max]); an empty list raises [ValueError]. The
    result is returned with its position in the list: the list elements are
    distinct float objects (each price is a fresh float parsed from JSON), so
    the position stands for the identity of the returned object. *)
Fixpoint extreme_from (better : float -> float -> bool)
    (i best : nat) (bv : float) (xs : list float) : nat * float :=
  match xs with
  | [] => (best, bv)
  | x :: r =>
      if better x bv then extreme_from better (S i) i x r
      else extreme_from better (S i) best bv r
  end.

Definition py_extreme (better : float -> float -> bool) (xs : list float)
    : M (nat * float) :=
  match xs with
  | [] => raise ValueError
  | x :: r => ret (extreme_from better 1 0 x r)
  end.

Definition min_better (item current : float) : bool := item <? current.
Definition max_better (item current : float) : bool := current <? item.
Definition py_min := py_extreme min_better.
Definition py_max := py_extreme max_better.

(** [xs.index(v)] where [v] is the object at position [i0]: the first
    position [j] whose element is [v] ([j = i0]) or compares equal to it
    ([PyObject_RichCompareBool] tests identity before [==]). *)
Fixpoint index_from (j i0 : nat) (v : float) (xs : list float) : M nat :=
  match xs with
  | [] => raise ValueError
  | x :: r => if Nat.eqb j i0 || (x =? v) then ret j
              else index_from (S j) i0 v r
  end.

Definition py_index (xs : list float) (obj : nat * float) : M nat :=
  index_from 0 (fst obj) (snd obj) xs.

(** ** numpy reductions on float64 arrays *)

Definition float_of_nat (n : nat) : float :=
  PrimFloat.of_uint63 (Uint63.of_Z (Z.of_nat n)).

(** [r[j] += a[i + j]] for the next [q] blocks of eight elements. *)
Fixpoint accumulate8 (q : nat) (r : list float) (a : list float) : list float :=
  match q with
  | O => r
  | S q' =>
      accumulate8 q' (map (fun '(x, y) => x + y) (combine r (firstn 8 a)))
        (skipn 8 a)
  end.

(** numpy's [pairwise_sum] (loops_utils.h), used by [np.add.reduce] on a
    contiguous float64 array: a plain loop below 8 elements, eight
    accumulators up to [PW_BLOCKSIZE = 128] elements, otherwise the two
    halves (the first one a multiple of 8 long) summed recursively. [fuel]
    is the length, which bounds the depth of the recursion. *)
Fixpoint pairwise_sum_fuel (fuel : nat) (a : list float) : float :=
  let n := List.length a in
  match fuel with
  | O => fold_left PrimFloat.add a 0
  | S fuel' =>
      if Nat.ltb n 8 then fold_left PrimFloat.add a 0
      else if Nat.leb n 128 then
        let m := (n - n mod 8)%nat in
        let r := accumulate8 (m / 8 - 1)%nat (firstn 8 a) (skipn 8 (firstn m a)) in
        let rj j := nth j r 0 in
        let res := ((rj 0%nat + rj 1%nat) + (rj 2%nat + rj 3%nat))
                   + ((rj 4%nat + rj 5%nat) + (rj 6%nat + rj 7%nat)) in
        fold_left PrimFloat.add (skipn m a) res
      else
        let n2 := (n / 2 - (n / 2) mod 8)%nat in
        pairwise_sum_fuel fuel' (firstn n2 a)
        + pairwise_sum_fuel fuel' (skipn n2 a)
  end.

Definition pairwise_sum (a : list float) : float :=
  pairwise_sum_fuel (List.length a) a.

(** [np.add.reduce(a)]: the result starts at the identity [0.0] of [add]
    and the inner loop adds the pairwise sum of the whole array to it. *)
Definition np_sum (a : list float) : float := 0 + pairwise_sum a.

(** [np.mean(a)] ([numpy._core._methods._mean]): the sum divided by the
    number of elements. *)
Definition np_mean (a : list float) : float :=
  np_sum a / float_of_nat (List.length a).

(** [np.var(a, ddof=ddof)] ([_var]): the mean [arrmean], the deviations
    [x = arr - arrmean], squared in place, summed, and divided by
    [max(n - ddof, 0)]. *)
Definition np_var (a : list float) (ddof : nat) : float :=
  let n := List.length a in
  let arrmean := np_sum a / float_of_nat n in
  let x := map (fun v => v - arrmean) a in
  let x := map (fun v => v * v) x in
  np_sum x / float_of_nat (n - ddof)%nat.

(** [np.std(a, ddof=ddof)] ([_std]): the square root of [_var]. *)
Definition np_std (a : list float) (ddof : nat) : float :=
  PrimFloat.sqrt (np_var a ddof).

Close Scope float_scope.

(** ** The statistics of the report and of the chart *)

Record stats (T : Type) := mk_stats {
  st_max : float; st_max_time : T;
  st_min : float; st_min_time : T;
  st_mean : float; st_std : float }.
Arguments mk_stats {T}.
Arguments st_max {T} s.
Arguments st_max_time {T} s.
Arguments st_min {T} s.
Arguments st_min_time {T} s.
Arguments st_mean {T} s.
Arguments st_std {T} s.

(** Lines 14-17 of [get_email_body]:
    [max_price, min_price = max(prices), min(prices)],
    [max_time, min_time = times[prices.index(max_price)],
                          times[prices.index(min_price)]],
    [mean_price = np.mean(prices)], [std_price = np.std(prices)]. *)
Definition email_stats {T} (times : list T) (prices : list float)
    : M (stats T) :=
  mx <- py_max prices ;;
  mn <- py_min prices ;;
  imx <- py_index prices mx ;;
  max_time <- getitem times imx ;;
  imn <- py_index prices mn ;;
  min_time <- getitem times imn ;;
  ret (mk_stats (snd mx) max_time (snd mn) min_time
         (np_mean prices) (np_std prices 0)).

(** Lines 163-170 of [graph_plot] and the lookups [times[min_index]],
    [times[max_index]] of the scatter calls (lines 177-179): the values the
    chart annotates. [float(np.mean(prices))] keeps the value of the numpy
    scalar. *)
Definition graph_plot_stats {T} (times : list T) (prices : list float)
    : M (stats T) :=
  mn <- py_min prices ;;
  mx <- py_max prices ;;
  min_index <- py_index prices mn ;;
  max_index <- py_index prices mx ;;
  let mean_price := np_mean prices in
  let std_price := np_std prices 0 in
  min_time <- getitem times min_index ;;
  max_time <- getitem times max_index ;;
  ret (mk_stats (snd mx) max_time (snd mn) min_time mean_price std_price).

(** ** [get_email_body]: the HTML report *)

(** The f-string of [get_email_body] as a sequence of literal text and
    replacement fields. A replacement field is kept as the value it
    formats and the format it applies: [{n}] on an int, [{round(v, 2):,}]
    on a price (rounded by Python's [round] on a Python float and by
    numpy's [round] on a numpy float64, then printed with [','] grouping of
    thousands), and [{t}] ([str(t)]) on a timestamp. *)
Inductive rounding := PyRound | NpRound.

Inductive segment (T : Type) :=
| Txt (s : string)
| FmtInt (n : nat)
| FmtRound2 (r : rounding) (v : float)
| FmtStr (t : T).
Arguments Txt {T} s.
Arguments FmtInt {T} n.
Arguments FmtRound2 {T} r v.
Arguments FmtStr {T} t.

Definition char (n : nat) : string := String (Ascii.ascii_of_nat n) EmptyString.
Definition nl : string := char 10.
Definition dq : string := char 34.

(** The metric name of the last row as the source file spells it,
    [Price Variability (Mean Â± Std)] in UTF-8. *)
Definition variability_name : string :=
  "Price Variability (Mean " ++ char 195 ++ char 130 ++ char 194 ++ char 177
  ++ " Std)".

(** The rows of the table, [<tr><td>name</td><td>cell</td></tr>]. *)
Definition email_rows {T} (st : stats T) : list (string * list (segment T)) :=
  let mean_price := st_mean st in
  let std_price := st_std st in
  [("Maximum Price", [FmtRound2 PyRound (st_max st); Txt " USD"]);
   ("Time of Max Price", [FmtStr (st_max_time st)]);
   ("Minimum Price", [FmtRound2 PyRound (st_min st); Txt " USD"]);
   ("Time of Min Price", [FmtStr (st_min_time st)]);
   ("Mean Price", [FmtRound2 NpRound mean_price; Txt " USD"]);
   ("Standard Deviation", [FmtRound2 NpRound std_price; Txt " USD"]);
   (variability_name,
     [FmtRound2 NpRound (PrimFloat.sub mean_price std_price); Txt " - ";
      FmtRound2 NpRound (PrimFloat.add mean_price std_price); Txt " USD"])].

Local Infix "+++" := List.app (right associativity, at level 60).

Definition row_html {T} (row : string * list (segment T)) : list (segment T) :=
  Txt (nl ++ "            <tr><td>" ++ fst row ++ "</td><td>")
  :: List.app (snd row) [Txt "</td></tr>"].

Definition email_html {T} (total_run_time_min : nat)
    (rows : list (string * list (segment T))) : list (segment T) :=
  [Txt (nl ++ "    <html>" ++ nl ++ "    <body>" ++ nl
        ++ "        <p>Bitcoin price analysis for the last ");
   FmtInt total_run_time_min;
   Txt (" minutes:</p>" ++ nl ++ "        <table border=" ++ dq ++ "1" ++ dq
        ++ " cellpadding=" ++ dq ++ "5" ++ dq ++ " cellspacing=" ++ dq ++ "0"
        ++ dq ++ ">" ++ nl
        ++ "            <tr><th>Metric</th><th>Value</th></tr>")]
  +++ List.concat (map row_html rows)
  +++ [Txt (nl ++ "        </table>" ++ nl ++ "    </body>" ++ nl
           ++ "    </html>" ++ nl ++ "    ")].

(** The table the report builds from a series. *)
Definition report_rows {T} (times : list T) (prices : list float)
    : M (list (string * list (segment T))) :=
  st <- email_stats times prices ;;
  ret (email_rows st).

(** [get_email_body(total_run_time_min, times, prices)]. *)
Definition get_email_body {T} (total_run_time_min : nat) (times : list T)
    (prices : list float) : M (list (segment T)) :=
  rows <- report_rows times prices ;;
  ret (email_html total_run_time_min rows).

(** ** [fetch_bpi] on the HTTP response *)

(** A JSON document as [response.json()] decodes it: [null], booleans,
    integers ([int]), other numbers ([float]), strings, arrays and objects
    (with their members in document order). *)
#[warnings="-register-all"]
Inductive json :=
| JNull
| JBool (b : bool)
| JInt (z : Z)
| JNum (x : float)
| JStr (s : string)
| JArr (l : list json)
| JObj (members : list (string * json)).

(** The Python [dict] of a JSON object maps a key to the value of its last
    member with that key ([json.loads] inserts the members in order). *)
Fixpoint dict_lookup (k : string) (members : list (string * json))
    : option json :=
  match members with
  | [] => None
  | (k', v) :: r =>
      match dict_lookup k r with
      | Some w => Some w
      | None => if String.eqb k k' then Some v else None
      end
  end.

Definition KeyError : exn := "KeyError".
Definition HTTPError : exn := "HTTPError".
Definition ConnectionError : exn := "ConnectionError".
Definition JSONDecodeError : exn := "JSONDecodeError".

(** [v[k]] with a string key: a lookup in a [dict], [KeyError] when the
    key is absent; [TypeError] on [None], a [bool], a number, a [str] or a
    [list]. *)
Definition json_getitem (v : json) (k : string) : M json :=
  match v with
  | JObj members =>
      match dict_lookup k members with
      | Some w => ret w
      | None => raise KeyError
      end
  | _ => raise TypeError
  end.

(** The response of [requests.get(url)]: its status code and its body
    decoded by [.json()], [None] when the body is not JSON. *)
Record http_response := mk_response {
  status_code : Z;
  response_json : option json
}.

(** [response.raise_for_status()]: [HTTPError] for a 4xx or 5xx status. *)
Definition raise_for_status (r : http_response) : M unit :=
  if ((400 <=? status_code r) && (status_code r <? 600))%Z
  then raise HTTPError else ret tt.

Definition response_json_m (r : http_response) : M json :=
  match response_json r with
  | Some j => ret j
  | None => raise JSONDecodeError
  end.

(** The value [fetch_bpi] returns, with the two fields as the JSON values
    they are. *)
Inductive fetch_value :=
| FetchDictJ (date price : json)
| FetchNoneNoneJ.

(** Lines 37-48 of [fetch_bpi]. [get] is what [requests.get(url)] gives:
    a response, or [None] when it raises (connection error, timeout). *)
Definition fetch_bpi_http (get : option http_response) : M fetch_value :=
  try_except
    (response <- (match get with
                  | Some r => ret r
                  | None => raise ConnectionError
                  end) ;;
     raise_for_status response ;;
     data <- response_json_m response ;;
     bpi <- json_getitem data "bpi" ;;
     usd <- json_getitem bpi "USD" ;;
     price <- json_getitem usd "rate_float" ;;
     tm <- json_getitem data "time" ;;
     date <- json_getitem tm "updatedISO" ;;
     log (LogInfo "Fetched Bitcoin price from API") ;;
     ret (FetchDictJ date price))
    (fun _ => log (LogError "Error fetching Bitcoin price") ;;
              ret FetchNoneNoneJ).

(** The value at a path of keys through nested objects. *)
Fixpoint json_path (j : json) (ks : list string) : option json :=
  match ks with
  | [] => Some j
  | k :: r =>
      match j with
      | JObj members =>
          match dict_lookup k members with
          | Some w => json_path w r
          | None => None
          end
      | _ => None
      end
  end.

(** ** The program's world: log, files and sent mail *)

(** [graph_plot]'s figure: the pyplot calls made on the figure that
    [plt.figure(figsize=(10, 6))] creates, in order, each with the data it
    draws; a label [prefix] with a value [v] is the f-string
    [f"{prefix}{v:,.2f}"]. [Legend] is [plt.legend()], the legend matplotlib
    builds from the labels of the artists drawn before it. *)
Inductive color := Red | Green | Black | Purple | Orange.

Inductive artist (X : Type) :=
| PlotLine (xs : list X) (ys : list float)
| ScatterPoint (x : X) (y : float) (c : color) (prefix : string) (v : float)
| TextLabel (x : X) (y : float) (prefix : string) (v : float) (c : color)
| HorizontalLine (y : float) (c : color) (prefix : string) (v : float)
| Title (minutes : nat)
| XLabel (s : string)
| YLabel (s : string)
| XTicksRotation (degrees : nat)
| TightLayout
| Grid
| Legend.
Arguments PlotLine {X} xs ys.
Arguments ScatterPoint {X} x y c prefix v.
Arguments TextLabel {X} x y prefix v c.
Arguments HorizontalLine {X} y c prefix v.
Arguments Title {X} minutes.
Arguments XLabel {X} s.
Arguments YLabel {X} s.
Arguments XTicksRotation {X} degrees.
Arguments TightLayout {X}.
Arguments Grid {X}.
Arguments Legend {X}.

Definition ConversionError : exn := "ConversionError".
Definition OSError : exn := "OSError".
Definition FileNotFoundError : exn := "FileNotFoundError".
Definition SMTPException : exn := "SMTPException".

Section Program.
Context {T : Type}.

(** A file the program writes: the JSON dump of the collected data
    ([json.dump(data, f, default=str)]) or a figure rendered in the format
    [savefig] chose. *)
Inductive file_content :=
| JsonDump (data : option (list (sample T)))
| FigureFile (fmt : string) (fig : list (artist (option T))).

Inductive mail_part :=
| HtmlPart (body : list (segment (option T)))
| FilePart (filename : string) (content : file_content).

(** A [MIMEMultipart] message: its From, To and Subject headers and its
    parts in order. *)
Record mail := mk_mail {
  mail_from : string;
  mail_to : string;
  mail_subject : string;
  mail_parts : list mail_part
}.

(** The log, the files (the latest write of a name first) and the
    messages the SMTP server accepted, with their envelope sender and
    recipient. *)
Record world := mk_world {
  w_log : list log_entry;
  w_files : list (string * file_content);
  w_outbox : list (string * string * mail)
}.

Definition IO (A : Type) := world -> result A * world.

Definition ioret {A} (a : A) : IO A := fun w => (Ret a, w).
Definition ioraise {A} (e : exn) : IO A := fun w => (Raise e, w).
Definition iobind {A B} (m : IO A) (k : A -> IO B) : IO B :=
  fun w => match m w with
           | (Ret a, w') => k a w'
           | (Raise e, w') => (Raise e, w')
           | (NoFuel, w') => (NoFuel, w')
           end.
Definition io_try_except {A} (body : IO A) (handler : exn -> IO A) : IO A :=
  fun w => match body w with
           | (Raise e, w') => handler e w'
           | r => r
           end.

(** A computation that only logs, run in the world. *)
Definition lift {A} (m : M A) : IO A :=
  fun w => let '(r, lg) := m (w_log w) in
           (r, mk_world lg (w_files w) (w_outbox w)).

Definition iolog (e : log_entry) : IO unit := lift (log e).

Fixpoint file_lookup (name : string) (fs : list (string * file_content))
    : option file_content :=
  match fs with
  | [] => None
  | (n, c) :: r => if String.eqb name n then Some c else file_lookup name r
  end.

Definition read_file (name : string) : IO file_content :=
  fun w => match file_lookup name (w_files w) with
           | Some c => (Ret c, w)
           | None => (Raise FileNotFoundError, w)
           end.
End Program.

Arguments file_content T : clear implicits.
Arguments mail T : clear implicits.
Arguments world T : clear implicits.
Arguments IO T A : clear implicits.

Notation "x <~ m ;;; k" := (iobind m (fun x => k))
  (at level 61, m at next level, right associativity).
Notation "m ;;; k" := (iobind m (fun _ => k)) (at level 61, right associativity).

(** The last component of a path, [attachment.split('/')[-1]]. *)
Fixpoint last_component_from (acc : string) (s : string) : string :=
  match s with
  | EmptyString => acc
  | String c r =>
      if Ascii.eqb c (Ascii.ascii_of_nat 47) then last_component_from EmptyString r
      else last_component_from (acc ++ String c EmptyString) r
  end.
Definition last_component (s : string) : string := last_component_from "" s.

Definition dot : Ascii.ascii := Ascii.ascii_of_nat 46.
Definition slash : Ascii.ascii := Ascii.ascii_of_nat 47.

(** [s.rfind(c)]: the index of the last occurrence of [c] in [s], [-1]
    when there is none. *)
Fixpoint rfind_from (c : Ascii.ascii) (i : Z) (s : string) (found : Z) : Z :=
  match s with
  | EmptyString => found
  | String a r => rfind_from c (i + 1)%Z r (if Ascii.eqb a c then i else found)
  end.
Definition rfind (c : Ascii.ascii) (s : string) : Z := rfind_from c 0%Z s (-1)%Z.

(** [os.path.splitext(p)[1]] ([genericpath._splitext] with ['/'] and
    ['.']): the part of [p] from its last ['.'] on, when that dot comes
    after the last ['/'] and a character other than ['.'] lies between the
    two (the [while] loop over [filenameIndex]); [""] otherwise. *)
Definition splitext_ext (p : string) : string :=
  let sepIndex := rfind slash p in
  let dotIndex := rfind dot p in
  if (sepIndex <? dotIndex)%Z then
    let filenameIndex := Z.to_nat (sepIndex + 1)%Z in
    if existsb (fun a => negb (Ascii.eqb a dot))
         (list_ascii_of_string
            (substring filenameIndex (Z.to_nat dotIndex - filenameIndex)%nat p))
    then substring (Z.to_nat dotIndex) (String.length p - Z.to_nat dotIndex)%nat p
    else ""
  else "".

(** [s[1:]] *)
Definition drop_first (s : string) : string :=
  match s with
  | EmptyString => EmptyString
  | String _ r => r
  end.

(** [s.rstrip('.')] *)
Fixpoint drop_dots (l : list Ascii.ascii) : list Ascii.ascii :=
  match l with
  | a :: r => if Ascii.eqb a dot then drop_dots r else l
  | [] => []
  end.
Definition rstrip_dots (s : string) : string :=
  string_of_list_ascii (rev (drop_dots (rev (list_ascii_of_string s)))).

(** The format and the file name [FigureCanvasBase.print_figure] settles
    on for [savefig(filename)] with no [format] argument:
    [format = os.path.splitext(filename)[1][1:]]; when that is empty, the
    default format [rcParams["savefig.format"]], ["png"], and the name
    [filename.rstrip('.') + '.' + format]. *)
Definition savefig_target (filename : string) : string * string :=
  let fmt := drop_first (splitext_ext filename) in
  if String.eqb fmt "" then ("png", (rstrip_dots filename ++ "." ++ "png")%string)
  else (fmt, filename).

Section Program2.
Context {T : Type}.
(** [open(name, "w")] succeeds on [name]. *)
Variable can_write : string -> bool.

(** [open(file_name, "w")] and the write that follows. *)
Definition write_file (name : string) (c : file_content T) : IO T unit :=
  fun w => if can_write name
           then (Ret tt, mk_world (w_log w) ((name, c) :: w_files w) (w_outbox w))
           else (Raise OSError, w).

(** Lines 54-62 of [save_to_json]. *)
Definition save_to_json (data : option (list (sample T))) (file_name : string)
    : IO T (option bool) :=
  io_try_except
    (write_file file_name (JsonDump data) ;;;
     iolog (LogInfo "Data saved") ;;;
     ioret (Some true))
    (fun _ => iolog (LogError "Error saving data to JSON file") ;;;
              ioret None).

(** [plt.plot(times, prices, ...)]: matplotlib raises [ValueError] when the
    two sequences differ in length, and [plot_ok] tells whether it converts
    the x values (its unit converters raise otherwise). *)
Variable plot_ok : list (option T) -> list float -> bool.

Definition plt_plot (xs : list (option T)) (ys : list float)
    : M (artist (option T)) :=
  if negb (Nat.eqb (List.length xs) (List.length ys)) then raise ValueError
  else if plot_ok xs ys then ret (PlotLine xs ys)
  else raise ConversionError.

(** Lines 187-191: [for i in zip(times, prices)], a black label on every
    point whose price is [not in (min_price, max_price)]; the tuple's
    [__contains__] tests identity and then [==]. [j] is the position in
    the list, [imn] and [imx] the positions of the objects [min()] and
    [max()] returned (see [extreme_from]). *)
Fixpoint price_labels (j imn : nat) (vmn : float) (imx : nat) (vmx : float)
    (ts : list (option T)) (ps : list float) : list (artist (option T)) :=
  match ts, ps with
  | t :: ts', p :: ps' =>
      let rest := price_labels (S j) imn vmn imx vmx ts' ps' in
      if (Nat.eqb j imn || (vmn =? p)%float) || (Nat.eqb j imx || (vmx =? p)%float)
      then rest
      else TextLabel t p "" p Black :: rest
  | _, _ => []
  end.

(** Lines 160-210 of [graph_plot], up to the [savefig]: the artists of the
    figure, in the order of the calls. *)
Definition graph_figure (times : list (option T)) (prices : list float)
    (total_run_time_min : nat) (write_price_values add_mean_std : bool)
    : M (list (artist (option T))) :=
  mn <- py_min prices ;;
  mx <- py_max prices ;;
  min_index <- py_index prices mn ;;
  max_index <- py_index prices mx ;;
  let mean_price := np_mean prices in
  let std_price := np_std prices 0 in
  line <- plt_plot times prices ;;
  tmin <- getitem times min_index ;;
  tmax <- getitem times max_index ;;
  ret ([line;
        ScatterPoint tmin (snd mn) Red "Lowest: " (snd mn);
        ScatterPoint tmax (snd mx) Green "Highest: " (snd mx);
        TextLabel tmin (snd mn) " " (snd mn) Red;
        TextLabel tmax (snd mx) " " (snd mx) Green]
       ++ (if write_price_values
           then price_labels 0 (fst mn) (snd mn) (fst mx) (snd mx) times prices
           else [])
       ++ (if add_mean_std
           then [HorizontalLine mean_price Purple "Mean: " mean_price;
                 HorizontalLine (mean_price + std_price)%float Orange
                   "Mean + Std: " (mean_price + std_price)%float;
                 HorizontalLine (mean_price - std_price)%float Orange
                   "Mean - Std: " (mean_price - std_price)%float]
           else [])
       ++ [Title total_run_time_min; XLabel "Time"; YLabel "Price (USD)";
           XTicksRotation 45; TightLayout; Grid; Legend])%list.

(** Whether the canvas supports the format [fmt.lower()] (its
    [get_supported_filetypes()]); [print_figure] raises [ValueError] on
    any other format before it opens a file. *)
Variable supported_format : string -> bool.

(** [plt.savefig(png_file_name)]: the format and the name of
    [savefig_target], then the figure written in that format. *)
Definition savefig (name : string) (fig : list (artist (option T)))
    : IO T unit :=
  let '(fmt, filename) := savefig_target name in
  if supported_format fmt then write_file filename (FigureFile fmt fig)
  else ioraise ValueError.

(** [graph_plot(times, prices, total_run_time_min, png_file_name,
    write_price_values, add_mean_std)]: the whole body runs in [try]. *)
Definition graph_plot (times : list (option T)) (prices : list float)
    (total_run_time_min : nat) (png_file_name : string)
    (write_price_values add_mean_std : bool) : IO T (option bool) :=
  io_try_except
    (fig <~ lift (graph_figure times prices total_run_time_min
                    write_price_values add_mean_std) ;;;
     savefig png_file_name fig ;;;
     iolog (LogInfo "Graph generated and saved") ;;;
     ioret (Some true))
    (fun _ => iolog (LogError "Failed to generate and save the graph") ;;;
              ioret None).

(** The SMTP server at [smtp.gmail.com:465]: whether the connection and
    the login with the given user and password succeed, and whether it
    accepts the message. *)
Variable smtp_login : string -> string -> bool.
Variable smtp_accepts : bool.

(** Lines 71-84 of [send_email]. *)
Definition send_email (msg : mail T) (email_user email_app_pass recipient : string)
    : IO T (option bool) :=
  io_try_except
    ((if smtp_login email_user email_app_pass then ioret tt
      else ioraise SMTPException) ;;;
     iolog (LogInfo "connected to e-mail server successfully") ;;;
     (fun w => if smtp_accepts
               then (Ret tt, mk_world (w_log w) (w_files w)
                               (w_outbox w ++ [(email_user, recipient, msg)]))
               else (Raise SMTPException, w)) ;;;
     iolog (LogInfo "Email sent successfully") ;;;
     ioret (Some true))
    (fun _ => iolog (LogError "Error sending email") ;;; ioret None).

(** Lines 257-270 of [main]: each file is read and attached; a file that
    cannot be opened is logged and skipped. *)
Fixpoint attach_all (msg : mail T) (attachments : list string) : IO T (mail T) :=
  match attachments with
  | [] => ioret msg
  | a :: r =>
      msg' <~ io_try_except
                (c <~ read_file a ;;;
                 ioret (mk_mail (mail_from msg) (mail_to msg) (mail_subject msg)
                          (mail_parts msg ++ [FilePart (last_component a) c])))
                (fun _ => iolog (LogError "Error attaching file") ;;; ioret msg) ;;;
      attach_all msg' r
  end.

(** The scanning parameters and file names of the module. *)
Definition TOTAL_RUN_TIME_MIN : nat := 60.
Definition SAMPLING_TIME_MIN : nat := 1.
Definition JSON_FILE_NAME : string := "bitcoin_prices.json".
Definition GRAPH_FILE_NAME : string := "bitcoin_price_graph.png".

(** The credentials of [emailCred], the time zone conversion and the
    replies of the API (see [collect_data]). *)
Variables EMAIL_USER EMAIL_APP_PASS RECIPIENT : string.
Variable tz_convert : string -> option T.
Variable replies : nat -> api_reply.

(** Lines 222-273 of [main]. *)
Definition main : IO T unit :=
  data <~ lift (collect_data tz_convert replies SAMPLING_TIME_MIN
                  TOTAL_RUN_TIME_MIN) ;;;
  save_to_json data JSON_FILE_NAME ;;;
  d <~ (match data with
        | Some d => ioret d
        | None => ioraise TypeError
        end) ;;;
  let times := map s_time d in
  let prices := map s_price d in
  graph_plot times prices TOTAL_RUN_TIME_MIN GRAPH_FILE_NAME false true ;;;
  body <~ lift (get_email_body TOTAL_RUN_TIME_MIN times prices) ;;;
  let msg := mk_mail EMAIL_USER RECIPIENT "Bitcoin price analysis"
               [HtmlPart body] in
  msg' <~ attach_all msg [JSON_FILE_NAME; GRAPH_FILE_NAME] ;;;
  send_email msg' EMAIL_USER EMAIL_APP_PASS RECIPIENT ;;;
  ioret tt.
End Program2.

(** ** Reference descriptions for the properties *)

(** The fields [fetch_bpi] returns, when the request succeeds, the status is
    not an error, the body is JSON and both key paths exist. *)
Definition fetch_fields (get : option http_response) : option (json * json) :=
  match get with
  | None => None
  | Some r =>
      if ((400 <=? status_code r) && (status_code r <? 600))%Z then None
      else match response_json r with
           | None => None
           | Some j =>
               match json_path j ["bpi"; "USD"; "rate_float"],
                     json_path j ["time"; "updatedISO"] with
               | Some p, Some d => Some (d, p)
               | _, _ => None
               end
           end
  end.

(** The calls that close the figure of [graph_plot]: title, axis labels,
    tick rotation, layout, grid and legend. *)
Definition figure_tail {X} (total_run_time_min : nat) : list (artist X) :=
  [Title total_run_time_min; XLabel "Time"; YLabel "Price (USD)";
   XTicksRotation 45; TightLayout; Grid; Legend].

(** The reply of the loop's model ([api_reply]) that a request stands
    for: [ApiError] when [fetch_bpi] returns [(None, None)], [ApiOk] when
    [rate_float] is a JSON float or [null] and [updatedISO] a string. Any
    other price or date (an int, a string, a list, an object, ...) has no
    reply in the model. *)
Definition api_reply_of (get : option http_response) : option api_reply :=
  match fetch_fields get with
  | None => Some ApiError
  | Some (JStr date, JNum x) => Some (ApiOk (Some x) date)
  | Some (JStr date, JNull) => Some (ApiOk None date)
  | Some _ => None
  end.

(** The value of the loop's model [fetch_bpi] returns, as the JSON values
    it holds. *)
Definition fetch_ret_json (r : fetch_ret) : fetch_value :=
  match r with
  | FetchDict date (Some x) => FetchDictJ (JStr date) (JNum x)
  | FetchDict date None => FetchDictJ (JStr date) JNull
  | FetchNoneNone => FetchNoneNoneJ
  end.

(** A response with the shape the spec's price source promises. *)
Definition coindesk_response (date : string) (rate : float) : http_response :=
  mk_response 200
    (Some (JObj [("time", JObj [("updated", JStr "Jan 1, 2024 00:00:00 UTC");
                                ("updatedISO", JStr date)]);
                 ("bpi", JObj [("USD", JObj [("code", JStr "USD");
                                             ("rate_float", JNum rate)])])])).

(** The samples of the ticks [k], ..., [k + n - 1] whose reply carries a
    price, in tick order, each with the converted time of its reply. *)
Fixpoint samples_of {T} (tz_convert : string -> option T)
    (replies : nat -> api_reply) (k n : nat) : list (sample T) :=
  match n with
  | O => []
  | S n' =>
      match replies k with
      | ApiOk (Some p) date =>
          mk_sample (tz_convert date) p :: samples_of tz_convert replies (S k) n'
      | _ => samples_of tz_convert replies (S k) n'
      end
  end.

(** The black price labels of a figure. *)
Definition is_black_label {X} (a : artist X) : bool :=
  match a with
  | TextLabel _ _ _ _ Black => true
  | _ => false
  end.

(** The labels of the points strictly between [lo] and [hi]. *)
Definition inner_labels {X} (lo hi : float) (ts : list X) (ps : list float)
    : list (artist X) :=
  map (fun tp => TextLabel (fst tp) (snd tp) "" (snd tp) Black)
    (filter (fun tp => ((lo <? snd tp) && (snd tp <? hi))%float)
       (combine ts ps)).

(** The part a file adds to the message, when it can be read. *)
Definition attachment_part {T} (fs : list (string * file_content T))
    (a : string) : list (mail_part (T:=T)) :=
  match file_lookup a fs with
  | Some c => [FilePart (last_component a) c]
  | None => []
  end.

(** The log entry of a file that cannot be read. *)
Definition attachment_error {T} (fs : list (string * file_content T))
    (a : string) : list log_entry :=
  match file_lookup a fs with
  | Some _ => []
  | None => [LogError "Error attaching file"]
  end.

(** The conditions under which [graph_figure] returns: a non-empty series,
    as many times as prices, x values that matplotlib converts. *)
Definition figure_ok {T} (plot_ok : list (option T) -> list float -> bool)
    (times : list (option T)) (prices : list float) : bool :=
  negb (Nat.eqb (List.length prices) 0)
  && Nat.eqb (List.length times) (List.length prices)
  && plot_ok times prices.

(** A computation that neither logs nor depends on the log. *)
Definition log_free {A} (m : M A) : Prop :=
  forall lg, m lg = (fst (m []), lg).

(** Concrete replies: a price on the even ticks, [null] on the odd ones. *)
Definition replies_even_price (k : nat) : api_reply :=
  if Nat.even k then ApiOk (Some 100%float) "2024-01-01T00:00:00+00:00"
  else ApiOk None "2024-01-01T00:00:00+00:00".

(** Concrete environments for [main]: every file can be written, matplotlib
    converts every series, the mail server accepts the login. *)
Definition always_write (name : string) : bool := true.
Definition always_plot (xs : list (option string)) (ys : list float) : bool := true.
Definition login_ok (user pass : string) : bool := true.
(** The formats matplotlib's default canvas saves to (its
    [_default_filetypes]). *)
Definition agg_formats (fmt : string) : bool :=
  existsb (String.eqb fmt)
    ["eps"; "jpg"; "jpeg"; "pdf"; "pgf"; "png"; "ps"; "raw"; "rgba"; "svg";
     "svgz"; "tif"; "tiff"; "webp"].
Definition empty_world : world string := mk_world [] [] [].

(** * Properties *)

(** ** The sampling loop *)

Section LoopFacts.
Context {T : Type}.
Variable tz_convert : string -> option T.
Variable replies : nat -> api_reply.
Variable sleet_in_min total_time : nat.

(** A failing fetch on a tick the loop reaches ends the loop with the
    [TypeError] of the subscript, whatever the earlier ticks did. *)
Lemma collect_loop_raises :
  forall d k0 elapsed fuel data lg,
    replies (k0 + d) = ApiError ->
    elapsed + d * (sleet_in_min * 60) < total_time ->
    d < fuel ->
    exists lg',
      collect_loop tz_convert replies fuel sleet_in_min total_time
        k0 elapsed data lg = (Raise TypeError, lg').
Proof.
  induction d as [|d IH]; intros k0 elapsed fuel data lg Hr Hlt Hf;
    (destruct fuel as [|fuel']; [lia|]); cbn [collect_loop];
    (replace (Nat.ltb elapsed total_time) with true
      by (symmetry; apply Nat.ltb_lt; lia)).
  - rewrite Nat.add_0_r in Hr. rewrite Hr. eexists. reflexivity.
  - destruct (replies k0) as [[p|] date|] eqn:Hk.
    + unfold bind at 1. cbn. unfold convert_utc_to_timezone.
      destruct (tz_convert date); cbn;
        (edestruct (IH (S k0) (elapsed + sleet_in_min * 60) fuel') as [lg' Hl];
         [rewrite <- Hr; f_equal; lia | simpl in Hlt |- *; nia | lia |
          eexists; apply Hl]).
    + cbn. edestruct (IH (S k0) (elapsed + sleet_in_min * 60) fuel') as [lg' Hl];
         [rewrite <- Hr; f_equal; lia | simpl in Hlt |- *; nia | lia |
          eexists; apply Hl].
    + eexists. reflexivity.
Qed.

(** When every fetch returns a price, the loop run from [elapsed] appends
    one sample per tick, and it makes as many ticks as the clock needs to
    reach [total_time] in steps of [sleet_in_min * 60]. *)
Lemma collect_loop_counts :
  (forall k, exists p date, replies k = ApiOk (Some p) date) ->
  0 < sleet_in_min ->
  forall fuel k0 elapsed data lg,
    total_time - elapsed < fuel ->
    exists fresh lg',
      collect_loop tz_convert replies fuel sleet_in_min total_time
        k0 elapsed data lg = (Ret (data +++ fresh), lg') /\
      total_time <= elapsed + List.length fresh * (sleet_in_min * 60) /\
      (fresh = [] \/
       elapsed + (List.length fresh - 1) * (sleet_in_min * 60) < total_time).
Proof.
  intros Hok Hs fuel. induction fuel as [|fuel IH];
    intros k0 elapsed data lg Hf; [lia|].
  cbn [collect_loop].
  destruct (Nat.ltb elapsed total_time) eqn:Hlt.
  - apply Nat.ltb_lt in Hlt.
    destruct (Hok k0) as [p [date Hk]]. rewrite Hk. cbn.
    unfold convert_utc_to_timezone.
    destruct (tz_convert date) as [t|]; cbn;
      (edestruct (IH (S k0) (elapsed + sleet_in_min * 60)) as
          [fresh [lg' [Hrun [Hge Hlast]]]]; [lia|]);
      eexists (_ :: fresh), lg'; rewrite Hrun, <- app_assoc;
      (split; [reflexivity|]); cbn [List.length];
      (split; [nia|right; destruct Hlast as [->|Hlast];
        [cbn; lia | destruct fresh; cbn in *; nia]]).
  - apply Nat.ltb_ge in Hlt.
    exists [], lg. rewrite app_nil_r. cbn. split; [reflexivity|]. split; [cbn; lia|left; reflexivity].
Qed.
End LoopFacts.

(** The number of ticks of a loop that runs while [k * s < r]. *)
Lemma ceil_div_unique (r s L : nat) :
  0 < s -> r <= L * s -> (L = 0 \/ (L - 1) * s < r) ->
  L = (r + s - 1) / s.
Proof.
  intros Hs Hge Hlast.
  apply (Nat.div_unique (r + s - 1) s L (r + s - 1 - s * L)).
  - destruct Hlast as [->|Hlast]; [lia|].
    destruct L as [|L]; [lia|]. cbn in Hlast. nia.
  - destruct Hlast as [->|Hlast]; [lia|].
    destruct L as [|L]; [lia|]. cbn in Hlast. nia.
Qed.

(** Concrete inputs for the sampling loop: the time zone conversion as the
    identity on the ISO string, a reply that always carries a price, and a
    run whose second fetch fails. *)
Definition tz_id (s : string) : option string := Some s.

Definition reply_ok (k : nat) : api_reply :=
  ApiOk (Some 100%float) "2024-01-01T00:00:00+00:00".

Definition replies_fail_second (k : nat) : api_reply :=
  match k with
  | O => ApiOk (Some 100%float) "2024-01-01T00:00:00+00:00"
  | S _ => ApiError
  end.

(** Under the tick model (each tick takes exactly its sleep), a run with
    positive sampling interval ends, and the sampling loop's number of
    ticks is the least [L] with [L * sleet_in_min >= run_time_min]. *)
Lemma collect_data_ok_run {T} (tz_convert : string -> option T) replies
    (sleet_in_min run_time_min : nat) :
  0 < sleet_in_min ->
  (forall k, exists p date, replies k = ApiOk (Some p) date) ->
  exists data lg,
    run (collect_data tz_convert replies sleet_in_min run_time_min)
      = (Ret (Some data), lg) /\
    run_time_min <= List.length data * sleet_in_min /\
    (data = [] \/ (List.length data - 1) * sleet_in_min < run_time_min).
Proof.
  intros Hs Hok.
  destruct (collect_loop_counts tz_convert replies sleet_in_min
              (run_time_min * 60) Hok Hs (S (run_time_min * 60)) 0 0 []
              [LogInfo "starting to collect data"]) as
      [fresh [lg' [Hrun [Hge Hlast]]]]; [lia|].
  exists fresh, (lg' +++ [LogInfo "Finished collecting data"]).
  unfold run, collect_data, try_except. cbn [bind log ret].
  cbn [app]. unfold bind at 1. rewrite Hrun. cbn. split; [reflexivity|].
  split; [nia|]. destruct Hlast as [->|Hlast]; [left; reflexivity|right; nia].
Qed.

(** ** Claims about the sampling loop *)

(** C1 (code_bug). A run of [collect_data] whose first fetch returns
    100.0 and whose second fetch fails: the failure is logged, but the
    [(None, None)] sentinel then makes [result["date"]] raise, the handler
    around the whole loop logs and the function returns [None]. The sample
    of the first tick is lost; the claim expects [[100.0]]. *)
Theorem collect_data_failed_fetch_drops_series :
  run (collect_data tz_id replies_fail_second 1 2)
  = (Ret None,
     [LogInfo "starting to collect data";
      LogInfo "Fetched Bitcoin price from API";
      LogError "Error fetching Bitcoin price";
      LogError "Failed collect data"]).
Proof. vm_compute. reflexivity. Qed.

(** C2 (amended). With a positive sampling interval and no failed fetch,
    modelling each tick as taking exactly one sampling interval,
    [collect_data] returns a list of [ceil(run_time_min / sleet_in_min)]
    samples, written [(run_time_min + sleet_in_min - 1) / sleet_in_min]: the
    loop runs while the elapsed time is below the run time. *)
Theorem collect_data_sample_count {T} (tz_convert : string -> option T)
    replies (sleet_in_min run_time_min : nat) :
  0 < sleet_in_min ->
  (forall k, exists p date, replies k = ApiOk (Some p) date) ->
  exists data lg,
    run (collect_data tz_convert replies sleet_in_min run_time_min)
      = (Ret (Some data), lg) /\
    List.length data = (run_time_min + sleet_in_min - 1) / sleet_in_min.
Proof.
  intros Hs Hok.
  destruct (collect_data_ok_run tz_convert replies sleet_in_min run_time_min
              Hs Hok) as [data [lg [Hrun [Hge Hlast]]]].
  exists data, lg. split; [exact Hrun|].
  apply ceil_div_unique; [exact Hs|exact Hge|].
  destruct Hlast as [->|Hlast]; [left; reflexivity|right; exact Hlast].
Qed.

Lemma collect_data_sample_count_witness :
  exists data lg,
    run (collect_data tz_id reply_ok 2 5) = (Ret (Some data), lg) /\
    List.length data = (5 + 2 - 1) / 2.
Proof.
  apply collect_data_sample_count; [lia|].
  intros k. exists 100%float, "2024-01-01T00:00:00+00:00". reflexivity.
Defined.

(** C2 (counterexample). [duration = 5], [interval = 2], no failed fetch:
    the loop ticks at 0, 2 and 4 minutes and returns 3 samples, not
    [floor(5 / 2) = 2]. *)
Lemma collect_data_sample_count_not_floor :
  ~ exists data lg,
      run (collect_data tz_id reply_ok 2 5) = (Ret (Some data), lg) /\
      List.length data = 5 / 2.
Proof.
  intros [data [lg [Hrun Hlen]]]. vm_compute in Hrun.
  injection Hrun as <- _. discriminate Hlen.
Qed.

(** C9. If the fetch fails on a tick the loop reaches (tick [k] starts at
    [k * sleet_in_min] minutes, before [run_time_min]), [collect_data]
    returns [None], logging ["Failed collect data"] last: the samples of
    the earlier ticks are discarded. *)
Theorem collect_data_fetch_failure_returns_none {T}
    (tz_convert : string -> option T) replies
    (sleet_in_min run_time_min k : nat) :
  0 < sleet_in_min ->
  k * sleet_in_min < run_time_min ->
  replies k = ApiError ->
  exists lg,
    run (collect_data tz_convert replies sleet_in_min run_time_min)
    = (Ret None, lg +++ [LogError "Failed collect data"]).
Proof.
  intros Hs Hk Hr.
  destruct (collect_loop_raises tz_convert replies sleet_in_min
              (run_time_min * 60) k 0 0 (S (run_time_min * 60)) []
              [LogInfo "starting to collect data"]) as [lg' Hrun];
    [exact Hr|nia|nia|].
  exists lg'. unfold run, collect_data, try_except. cbn [bind log ret app].
  unfold bind at 1. rewrite Hrun. reflexivity.
Qed.

Lemma collect_data_fetch_failure_returns_none_witness :
  exists lg,
    run (collect_data tz_id replies_fail_second 1 2)
    = (Ret None, lg +++ [LogError "Failed collect data"]).
Proof.
  apply (collect_data_fetch_failure_returns_none tz_id replies_fail_second
           1 2 1); [lia|lia|reflexivity].
Defined.

(** ** The statistics: exceptions and agreement of the two derivations *)

(** The position [min()] or [max()] returns holds the returned value. *)
Lemma extreme_from_nth (better : float -> float -> bool) (full : list float) :
  forall xs i best bv,
    nth_error full best = Some bv ->
    (forall k, nth_error full (i + k) = nth_error xs k) ->
    nth_error full (fst (extreme_from better i best bv xs))
    = Some (snd (extreme_from better i best bv xs)).
Proof.
  induction xs as [|x xs IH]; intros i best bv Hb Hsuf; cbn; [exact Hb|].
  destruct (better x bv); apply IH.
  - specialize (Hsuf 0). rewrite Nat.add_0_r in Hsuf. exact Hsuf.
  - intros k. specialize (Hsuf (S k)). cbn in Hsuf. rewrite <- Hsuf.
    f_equal. lia.
  - exact Hb.
  - intros k. specialize (Hsuf (S k)). cbn in Hsuf. rewrite <- Hsuf.
    f_equal. lia.
Qed.

Lemma py_extreme_nth better x r :
  let e := extreme_from better 1 0 x r in
  nth_error (x :: r) (fst e) = Some (snd e).
Proof. apply extreme_from_nth; reflexivity. Qed.

(** [list.index] of an object of the list finds a position, and neither
    logs nor raises. *)
Lemma index_from_found (v : float) :
  forall xs j i0 lg, j <= i0 < j + List.length xs ->
    exists n, index_from j i0 v xs lg = (Ret n, lg) /\ j <= n <= i0.
Proof.
  induction xs as [|x xs IH]; intros j i0 lg Hr; cbn in Hr |- *; [lia|].
  destruct (Nat.eqb j i0) eqn:Hj; cbn.
  - apply Nat.eqb_eq in Hj. exists j. split; [reflexivity|lia].
  - apply Nat.eqb_neq in Hj.
    destruct (x =? v)%float.
    + exists j. split; [reflexivity|lia].
    + destruct (IH (S j) i0 lg) as [n [Hn Hb]]; [lia|].
      exists n. split; [exact Hn|lia].
Qed.

Lemma py_index_extreme better x r lg :
  exists n,
    py_index (x :: r) (extreme_from better 1 0 x r) lg = (Ret n, lg) /\
    n <= fst (extreme_from better 1 0 x r).
Proof.
  pose proof (py_extreme_nth better x r) as Hn. cbn zeta in Hn.
  assert (fst (extreme_from better 1 0 x r) < List.length (x :: r))
    by (apply nth_error_Some; rewrite Hn; discriminate).
  destruct (index_from_found (snd (extreme_from better 1 0 x r)) (x :: r) 0
              (fst (extreme_from better 1 0 x r)) lg) as [n [Hi Hb]];
    [lia|].
  exists n. split; [exact Hi|lia].
Qed.

(** C3 (amended). [get_email_body] on an empty series raises [ValueError]
    (from [max()] of an empty sequence), before any statistic is computed,
    and does not catch it. *)
Theorem get_email_body_empty_raises {T} (n : nat) (times : list T) lg :
  get_email_body n times [] lg = (Raise ValueError, lg).
Proof. reflexivity. Qed.

(** C3 (counterexample). The exception is not an [InsufficientDataError]:
    no such class exists in the code. *)
Lemma get_email_body_empty_not_insufficient_data :
  fst (run (@get_email_body string 60 [] [])) <> Raise "InsufficientDataError".
Proof. vm_compute. discriminate. Qed.

(** C10. The statistics the chart annotates and the statistics of the
    e-mail are the same on every input, exceptions included. *)
Theorem graph_plot_stats_eq_email_stats {T} (times : list T)
    (prices : list float) lg :
  graph_plot_stats times prices lg = email_stats times prices lg.
Proof.
  destruct prices as [|x r]; [reflexivity|].
  unfold graph_plot_stats, email_stats, py_min, py_max, py_extreme, py_index.
  unfold bind, ret. cbv beta iota.
  destruct (py_index_extreme min_better x r lg) as [i1 [H1 _]].
  destruct (py_index_extreme max_better x r lg) as [i2 [H2 _]].
  unfold py_index in H1, H2.
  destruct (nth_error times i1) as [t1|] eqn:E1,
           (nth_error times i2) as [t2|] eqn:E2;
    do 4 (cbv beta iota delta [ret raise getitem];
          rewrite ?H1, ?H2, ?E1, ?E2); reflexivity.
Qed.

(** What [email_stats] returns, when it returns. *)
Lemma email_stats_inv {T} (times : list T) prices st lg lg' :
  email_stats times prices lg = (Ret st, lg') ->
  lg' = lg /\
  exists x r, prices = x :: r /\
    st_max st = snd (extreme_from max_better 1 0 x r) /\
    st_min st = snd (extreme_from min_better 1 0 x r) /\
    st_mean st = np_mean prices /\ st_std st = np_std prices 0 /\
    (exists i, py_index prices (extreme_from max_better 1 0 x r) lg
               = (Ret i, lg) /\ nth_error times i = Some (st_max_time st)) /\
    (exists i, py_index prices (extreme_from min_better 1 0 x r) lg
               = (Ret i, lg) /\ nth_error times i = Some (st_min_time st)).
Proof.
  intros H. destruct prices as [|x r]; [discriminate|].
  destruct (py_index_extreme min_better x r lg) as [i1 [H1 _]].
  destruct (py_index_extreme max_better x r lg) as [i2 [H2 _]].
  unfold email_stats, py_min, py_max, py_extreme, bind, ret in H.
  cbv beta iota in H.
  pose proof H1 as H1'. pose proof H2 as H2'.
  unfold py_index in H1, H2.
  destruct (nth_error times i1) as [t1|] eqn:E1,
           (nth_error times i2) as [t2|] eqn:E2;
    do 4 (cbv beta iota delta [ret raise getitem] in H;
          rewrite ?H1', ?H2', ?E1, ?E2 in H); try discriminate.
  injection H as <- <-. split; [reflexivity|].
  exists x, r. repeat split; [exists i2; split; assumption
                             |exists i1; split; assumption].
Qed.

(** [email_stats] returns on every non-empty series whose times are as
    many as its prices. *)
Lemma email_stats_returns {T} (times : list T) prices lg :
  prices <> [] -> List.length times = List.length prices ->
  exists st, email_stats times prices lg = (Ret st, lg).
Proof.
  intros Hne Hlen. destruct prices as [|x r]; [congruence|].
  destruct (py_index_extreme min_better x r lg) as [i1 [H1 B1]].
  destruct (py_index_extreme max_better x r lg) as [i2 [H2 B2]].
  pose proof (py_extreme_nth min_better x r) as N1.
  pose proof (py_extreme_nth max_better x r) as N2. cbn zeta in N1, N2.
  assert (L1 : i1 < List.length times).
  { rewrite Hlen. assert (nth_error (x :: r) (fst (extreme_from min_better 1 0 x r)) <> None)
      as N by congruence. apply nth_error_Some in N. lia. }
  assert (L2 : i2 < List.length times).
  { rewrite Hlen. assert (nth_error (x :: r) (fst (extreme_from max_better 1 0 x r)) <> None)
      as N by congruence. apply nth_error_Some in N. lia. }
  destruct (nth_error times i1) as [t1|] eqn:E1;
    [|apply nth_error_None in E1; lia].
  destruct (nth_error times i2) as [t2|] eqn:E2;
    [|apply nth_error_None in E2; lia].
  unfold email_stats, py_min, py_max, py_extreme, bind, ret.
  cbv beta iota.
  eexists.
  do 4 (cbv beta iota delta [ret raise getitem];
        rewrite ?H1, ?H2, ?E1, ?E2).
  reflexivity.
Qed.

(** ** Claims about the statistics *)

(** C4. The mean of the report is the sum of the prices divided by their
    number [N], and the standard deviation is the square root of the sum of
    the squared deviations from that mean divided by [N] (population
    formula, [ddof = 0]), both in binary64 with numpy's summation; for the
    prices [100.0, 300.0, 200.0] the mean is 200.0 and the deviation
    81.64965809277261 (the Bessel-corrected one, [ddof = 1], would be
    100.0). *)
Theorem email_stats_population_mean_std :
  (forall (T : Type) (times : list T) prices st lg lg',
     email_stats times prices lg = (Ret st, lg') ->
     let n := float_of_nat (List.length prices) in
     st_mean st = (np_sum prices / n)%float /\
     st_std st =
       PrimFloat.sqrt
         (np_sum (map (fun x => (x - st_mean st) * (x - st_mean st))%float
                    prices) / n)%float) /\
  (exists st,
     email_stats ["t0"; "t1"; "t2"] [100; 300; 200]%float [] = (Ret st, []) /\
     st_mean st = 200%float /\
     (* 0x1.46993ff898291p+6 is the binary64 number Python prints as
        81.64965809277261 *)
     st_std st = 0x1.46993ff898291p+6%float /\
     np_std [100; 300; 200]%float 1 = 100%float).
Proof.
  split.
  - intros T times prices st lg lg' H n.
    destruct (email_stats_inv times prices st lg lg' H)
      as [_ [x [r [_ [_ [_ [Hmean [Hstd _]]]]]]]].
    rewrite Hstd, Hmean. unfold np_std, np_var, np_mean.
    rewrite map_map, Nat.sub_0_r. split; reflexivity.
  - eexists. split; [vm_compute; reflexivity|].
    vm_compute. repeat split; reflexivity.
Qed.

(** C8. On every non-empty series (a time per price), the report is the
    fixed table below, metric name then value: every price value is rounded
    to two decimals ([round(v, 2)], Python's on the Python floats min and
    max, numpy's on the numpy floats mean and std) and printed with [',']
    grouping, followed by [" USD"]; the two time rows hold [str()] of the
    timestamp, as the time of a price; the last row holds the two ends
    [mean - std] and [mean + std], each rounded and grouped the same way. *)
Theorem get_email_body_schema {T} (n : nat) (times : list T) prices lg :
  prices <> [] -> List.length times = List.length prices ->
  exists st,
    email_stats times prices lg = (Ret st, lg) /\
    let rows :=
      [("Maximum Price", [FmtRound2 PyRound (st_max st); Txt " USD"]);
       ("Time of Max Price", [FmtStr (st_max_time st)]);
       ("Minimum Price", [FmtRound2 PyRound (st_min st); Txt " USD"]);
       ("Time of Min Price", [FmtStr (st_min_time st)]);
       ("Mean Price", [FmtRound2 NpRound (st_mean st); Txt " USD"]);
       ("Standard Deviation", [FmtRound2 NpRound (st_std st); Txt " USD"]);
       (variability_name,
         [FmtRound2 NpRound (st_mean st - st_std st)%float; Txt " - ";
          FmtRound2 NpRound (st_mean st + st_std st)%float; Txt " USD"])] in
    report_rows times prices lg = (Ret rows, lg) /\
    get_email_body n times prices lg = (Ret (email_html n rows), lg).
Proof.
  intros Hne Hlen.
  destruct (email_stats_returns times prices lg Hne Hlen) as [st Hst].
  exists st. split; [exact Hst|]. cbv zeta.
  unfold get_email_body, report_rows, bind. cbv beta.
  rewrite Hst. split; reflexivity.
Qed.

Lemma get_email_body_schema_witness :
  exists st,
    email_stats ["t0"; "t1"; "t2"] [100; 300; 200]%float [] = (Ret st, []) /\
    let rows :=
      [("Maximum Price", [FmtRound2 PyRound (st_max st); Txt " USD"]);
       ("Time of Max Price", [FmtStr (st_max_time st)]);
       ("Minimum Price", [FmtRound2 PyRound (st_min st); Txt " USD"]);
       ("Time of Min Price", [FmtStr (st_min_time st)]);
       ("Mean Price", [FmtRound2 NpRound (st_mean st); Txt " USD"]);
       ("Standard Deviation", [FmtRound2 NpRound (st_std st); Txt " USD"]);
       (variability_name,
         [FmtRound2 NpRound (st_mean st - st_std st)%float; Txt " - ";
          FmtRound2 NpRound (st_mean st + st_std st)%float; Txt " USD"])] in
    report_rows ["t0"; "t1"; "t2"] [100; 300; 200]%float [] = (Ret rows, []) /\
    get_email_body 60 ["t0"; "t1"; "t2"] [100; 300; 200]%float []
      = (Ret (email_html 60 rows), []).
Proof.
  apply get_email_body_schema; [discriminate|reflexivity].
Defined.

(** ** The order of binary64 numbers *)

(** Comparisons of primitive floats are specified by [FloatAxioms] through
    [SFcompare] on [spec_float]. Away from NaN, [SFcompare] is the
    lexicographic order of a key: sign class, then exponent, then mantissa
    (both negated for negative numbers); the two zeros share a key. *)
Section FloatOrder.
Local Open Scope Z_scope.

Definition sf_key (x : spec_float) : Z * Z * Z :=
  match x with
  | S754_infinity true => (0, 0, 0)
  | S754_finite true m e => (1, - e, Zneg m)
  | S754_zero _ => (2, 0, 0)
  | S754_finite false m e => (3, e, Zpos m)
  | S754_infinity false => (4, 0, 0)
  | S754_nan => (2, 0, 0)
  end.

Definition key_cmp (a b : Z * Z * Z) : comparison :=
  let '(a1, a2, a3) := a in
  let '(b1, b2, b3) := b in
  match a1 ?= b1 with
  | Eq => match a2 ?= b2 with Eq => a3 ?= b3 | c => c end
  | c => c
  end.

Definition key_lt (a b : Z * Z * Z) : Prop :=
  let '(a1, a2, a3) := a in
  let '(b1, b2, b3) := b in
  a1 < b1 \/ (a1 = b1 /\ (a2 < b2 \/ (a2 = b2 /\ a3 < b3))).

Lemma key_cmp_antisym a b : key_cmp b a = CompOpp (key_cmp a b).
Proof.
  destruct a as [[a1 a2] a3], b as [[b1 b2] b3]; cbn.
  rewrite (Z.compare_antisym a1 b1), (Z.compare_antisym a2 b2),
    (Z.compare_antisym a3 b3).
  destruct (a1 ?= b1), (a2 ?= b2), (a3 ?= b3); reflexivity.
Qed.

Lemma key_cmp_refl a : key_cmp a a = Eq.
Proof.
  destruct a as [[a1 a2] a3]; cbn. rewrite !Z.compare_refl. reflexivity.
Qed.

Lemma key_cmp_Lt a b : key_cmp a b = Lt <-> key_lt a b.
Proof.
  destruct a as [[a1 a2] a3], b as [[b1 b2] b3]; cbn.
  destruct (Z.compare_spec a1 b1), (Z.compare_spec a2 b2),
    (Z.compare_spec a3 b3);
    split; intros; try lia; try discriminate; reflexivity.
Qed.

Lemma key_cmp_trans a b c :
  key_cmp a b = Lt -> key_cmp b c = Lt -> key_cmp a c = Lt.
Proof.
  rewrite !key_cmp_Lt.
  destruct a as [[a1 a2] a3], b as [[b1 b2] b3], c as [[c1 c2] c3];
    cbn; lia.
Qed.

Lemma SFcompare_key x y :
  x <> S754_nan -> y <> S754_nan ->
  SFcompare x y = Some (key_cmp (sf_key x) (sf_key y)).
Proof.
  intros Hx Hy.
  destruct x as [sx|sx| |sx mx ex]; [| |congruence|];
  destruct y as [sy|sy| |sy my ey]; try congruence;
  try destruct sx; try destruct sy; cbn; try reflexivity.
  - rewrite Z.compare_opp, (Z.compare_antisym ex ey).
    destruct (ex ?= ey); reflexivity.
Qed.

Lemma SFltb_not_nan x y :
  SFltb x y = true -> x <> S754_nan /\ y <> S754_nan.
Proof.
  destruct x, y; cbn; intros H; try discriminate; split; discriminate.
Qed.

Lemma SFltb_key x y :
  x <> S754_nan -> y <> S754_nan ->
  SFltb x y = true <-> key_cmp (sf_key x) (sf_key y) = Lt.
Proof.
  intros Hx Hy. unfold SFltb. rewrite (SFcompare_key x y Hx Hy).
  destruct (key_cmp _ _); split; congruence.
Qed.
End FloatOrder.

Lemma Prim2SF_not_nan (x : float) : is_nan x = false -> Prim2SF x <> S754_nan.
Proof.
  unfold is_nan. rewrite FloatAxioms.eqb_spec. intros H E.
  rewrite E in H. discriminate H.
Qed.

(** [<] on floats is transitive and irreflexive, NaN included. *)
Lemma float_ltb_trans (x y z : float) :
  (x <? y)%float = true -> (y <? z)%float = true -> (x <? z)%float = true.
Proof.
  rewrite !FloatAxioms.ltb_spec. intros H1 H2.
  destruct (SFltb_not_nan _ _ H1) as [Nx Ny].
  destruct (SFltb_not_nan _ _ H2) as [_ Nz].
  apply SFltb_key in H1, H2; auto. apply SFltb_key; auto.
  eapply key_cmp_trans; eassumption.
Qed.

Lemma float_ltb_irrefl (x : float) : (x <? x)%float = false.
Proof.
  rewrite FloatAxioms.ltb_spec. destruct (Prim2SF x) eqn:E; try reflexivity;
  unfold SFltb; rewrite SFcompare_key by discriminate;
  rewrite key_cmp_refl; reflexivity.
Qed.

(** Away from NaN, floats are totally ordered. *)
Lemma float_not_ltb_leb (x y : float) :
  is_nan x = false -> is_nan y = false ->
  (x <? y)%float = false -> (y <=? x)%float = true.
Proof.
  intros Hx Hy. apply Prim2SF_not_nan in Hx, Hy.
  rewrite FloatAxioms.ltb_spec, FloatAxioms.leb_spec.
  unfold SFltb, SFleb. rewrite !SFcompare_key by assumption.
  rewrite (key_cmp_antisym (sf_key (Prim2SF x))).
  destruct (key_cmp _ _); cbn; congruence.
Qed.

Lemma float_eqb_refl (x : float) : is_nan x = false -> (x =? x)%float = true.
Proof. unfold is_nan. destruct (x =? x)%float; cbn; congruence. Qed.

(** ** What [min()], [max()] and [list.index] return *)

(** [extreme_from] keeps its current value unless an element is strictly
    better; for a transitive, irreflexive [better], no element of the list
    is better than the value it returns. *)
Section Extreme.
Variable better : float -> float -> bool.
Hypothesis better_trans : forall a b c,
  better a b = true -> better b c = true -> better a c = true.
Hypothesis better_irrefl : forall a, better a a = false.

Lemma extreme_from_chain xs : forall i best bv,
  snd (extreme_from better i best bv xs) = bv \/
  better (snd (extreme_from better i best bv xs)) bv = true.
Proof.
  induction xs as [|x r IH]; intros i best bv; cbn; [left; reflexivity|].
  destruct (better x bv) eqn:Hx.
  - destruct (IH (S i) i x) as [E|E]; right; [rewrite E; exact Hx|].
    eapply better_trans; eassumption.
  - apply IH.
Qed.

Lemma extreme_from_none_better xs : forall i best bv y,
  y = bv \/ In y xs ->
  better y (snd (extreme_from better i best bv xs)) = false.
Proof.
  induction xs as [|x r IH]; intros i best bv y Hy; cbn.
  - destruct Hy as [->|[]]. apply better_irrefl.
  - destruct (better x bv) eqn:Hx.
    + destruct Hy as [->|[->|Hy]]; [|apply IH; left; reflexivity|].
      * destruct (better bv (snd (extreme_from better (S i) i x r)))
          eqn:Hb; [|reflexivity].
        exfalso. pose proof (better_irrefl bv) as Hi.
        destruct (extreme_from_chain r (S i) i x) as [E|E].
        -- rewrite E in Hb. rewrite (better_trans _ _ _ Hb Hx) in Hi.
           discriminate.
        -- rewrite (better_trans _ _ _ (better_trans _ _ _ Hb E) Hx) in Hi.
           discriminate.
      * apply IH. right. exact Hy.
    + destruct Hy as [->|[->|Hy]]; [apply IH; left; reflexivity| |].
      * destruct (better y (snd (extreme_from better (S i) best bv r)))
          eqn:Hb; [|reflexivity].
        destruct (extreme_from_chain r (S i) best bv) as [E|E].
        -- rewrite E in Hb. congruence.
        -- rewrite (better_trans _ _ _ Hb E) in Hx. discriminate.
      * apply IH. right. exact Hy.
Qed.
End Extreme.

Lemma min_better_trans a b c :
  min_better a b = true -> min_better b c = true -> min_better a c = true.
Proof. apply float_ltb_trans. Qed.

Lemma max_better_trans a b c :
  max_better a b = true -> max_better b c = true -> max_better a c = true.
Proof. unfold max_better. intros H1 H2. exact (float_ltb_trans _ _ _ H2 H1). Qed.

Lemma min_better_irrefl a : min_better a a = false.
Proof. apply float_ltb_irrefl. Qed.

Lemma max_better_irrefl a : max_better a a = false.
Proof. apply float_ltb_irrefl. Qed.

(** [xs.index(v)], for the object [v] at position [i0], returns the first
    position whose element compares equal to [v], as long as [v == v]. *)
Lemma index_from_first (full : list float) (v : float) :
  forall xs j i0 n lg lg',
    (forall k, nth_error full (j + k) = nth_error xs k) ->
    j <= i0 -> nth_error full i0 = Some v -> (v =? v)%float = true ->
    index_from j i0 v xs lg = (Ret n, lg') ->
    (exists pn, nth_error full n = Some pn /\ (pn =? v)%float = true) /\
    (forall j' p, j <= j' < n -> nth_error full j' = Some p ->
                  (p =? v)%float = false).
Proof.
  induction xs as [|x r IH]; intros j i0 n lg lg' Hsuf Hj Hv Hvv H;
    cbn in H; [discriminate|].
  assert (Hx : nth_error full j = Some x)
    by (rewrite <- (Nat.add_0_r j), Hsuf; reflexivity).
  destruct (Nat.eqb j i0) eqn:Ej; cbn in H.
  - injection H as <- _. apply Nat.eqb_eq in Ej. subst i0.
    split; [exists v; split; assumption|intros; lia].
  - apply Nat.eqb_neq in Ej.
    destruct (x =? v)%float eqn:Ex.
    + injection H as <- _.
      split; [exists x; split; assumption|intros; lia].
    + destruct (IH (S j) i0 n lg lg') as [IH1 IH2]; try assumption; [| lia |].
      * intros k. replace (S j + k) with (j + S k) by lia. apply Hsuf.
      * split; [exact IH1|].
        intros j' p Hj' Hp.
        destruct (Nat.eq_dec j' j) as [->|Ne]; [congruence|].
        apply (IH2 j'); [lia|exact Hp].
Qed.

(** The position of the first element of [prices] that compares equal to
    [v]. *)
Definition first_attaining (prices : list float) (v : float) (j : nat)
    : Prop :=
  (exists pj, nth_error prices j = Some pj /\ (pj =? v)%float = true) /\
  (forall j' pj', j' < j -> nth_error prices j' = Some pj' ->
                  (pj' =? v)%float = false).

Lemma py_index_first better x r lg i :
  is_nan (snd (extreme_from better 1 0 x r)) = false ->
  py_index (x :: r) (extreme_from better 1 0 x r) lg = (Ret i, lg) ->
  first_attaining (x :: r) (snd (extreme_from better 1 0 x r)) i.
Proof.
  intros Hn H. pose proof (py_extreme_nth better x r) as N. cbn zeta in N.
  unfold py_index in H.
  destruct (index_from_first (x :: r) (snd (extreme_from better 1 0 x r))
              (x :: r) 0 (fst (extreme_from better 1 0 x r)) i lg lg)
    as [H1 H2]; [reflexivity|lia|exact N|apply float_eqb_refl, Hn|exact H|].
  split; [exact H1|]. intros j' p Hj' Hp. apply (H2 j'); [lia|exact Hp].
Qed.

(** The statistics [min], [max], their times, on a series with no NaN. *)
Lemma email_stats_extremes {T} (times : list T) prices lg :
  prices <> [] -> List.length times = List.length prices ->
  Forall (fun p => is_nan p = false) prices ->
  exists st, email_stats times prices lg = (Ret st, lg) /\
    In (st_min st) prices /\
    (forall p, In p prices -> (st_min st <=? p)%float = true) /\
    In (st_max st) prices /\
    (forall p, In p prices -> (p <=? st_max st)%float = true) /\
    (exists j, first_attaining prices (st_min st) j /\
               nth_error times j = Some (st_min_time st)) /\
    (exists j, first_attaining prices (st_max st) j /\
               nth_error times j = Some (st_max_time st)).
Proof.
  intros Hne Hlen Hnan.
  destruct (email_stats_returns times prices lg Hne Hlen) as [st Hst].
  exists st. split; [exact Hst|].
  destruct (email_stats_inv times prices st lg lg Hst)
    as [_ [x [r [-> [Hmax [Hmin [_ [_ [[i2 [I2 T2]] [i1 [I1 T1]]]]]]]]]]].
  pose proof (py_extreme_nth min_better x r) as N1.
  pose proof (py_extreme_nth max_better x r) as N2. cbn zeta in N1, N2.
  apply nth_error_In in N1, N2.
  rewrite Forall_forall in Hnan.
  assert (Hn1 := Hnan _ N1). assert (Hn2 := Hnan _ N2).
  rewrite <- Hmin in N1, Hn1. rewrite <- Hmax in N2, Hn2.
  repeat split; try assumption.
  - intros p Hp. apply float_not_ltb_leb; [apply Hnan, Hp|exact Hn1|].
    rewrite Hmin.
    apply (extreme_from_none_better min_better min_better_trans
             min_better_irrefl r 1 0 x p).
    destruct Hp as [<-|Hp]; [left; reflexivity|right; exact Hp].
  - intros p Hp. apply float_not_ltb_leb; [exact Hn2|apply Hnan, Hp|].
    rewrite Hmax.
    apply (extreme_from_none_better max_better max_better_trans
             max_better_irrefl r 1 0 x p).
    destruct Hp as [<-|Hp]; [left; reflexivity|right; exact Hp].
  - exists i1. split; [|exact T1]. rewrite Hmin.
    apply (py_index_first min_better x r lg); [rewrite <- Hmin; exact Hn1|exact I1].
  - exists i2. split; [|exact T2]. rewrite Hmax.
    apply (py_index_first max_better x r lg); [rewrite <- Hmax; exact Hn2|exact I2].
Qed.

(** ** Exact binary64 operations on one finite number *)

Section ExactOps.
Local Open Scope Z_scope.

Lemma fexp64 x : fexp prec emax x = Z.max (x - 53) (-1074).
Proof. reflexivity. Qed.

Lemma bounded_facts m e :
  bounded prec emax m e = true ->
  Z.max (Zpos (digits2_pos m) + e - 53) (-1074) = e /\ e <= 971.
Proof.
  unfold bounded, canonical_mantissa. rewrite fexp64.
  rewrite andb_true_iff, Z.eqb_eq, Z.leb_le. exact (fun H => H).
Qed.

(* Replace the shift amount of the next [shr] by [n], given [E : k = n]
   up to conversion. *)
Local Ltac shift_by n E :=
  lazymatch goal with
  | |- context [shr ?r ?e0 ?k] => replace k with n by (symmetry; exact E)
  end.

(** Rounding a canonical mantissa, exactly known, gives it back. *)
Lemma round_aux_exact s m e :
  bounded prec emax m e = true ->
  binary_round_aux prec emax s (Zpos m) e loc_Exact = S754_finite s m e.
Proof.
  intros H. pose proof (bounded_facts m e H) as [Hc Hb].
  unfold binary_round_aux, shr_fexp. cbn [Zdigits2].
  assert (E : fexp prec emax (Zpos (digits2_pos m) + e) - e = 0)
    by (rewrite fexp64; lia).
  shift_by 0 E.
  cbn [shr shr_record_of_loc shr_m loc_of_shr_record round_nearest_even
       Zdigits2].
  shift_by 0 E. cbn [shr shr_m].
  replace (e <=? emax - prec) with true
    by (symmetry; apply Z.leb_le; exact Hb).
  reflexivity.
Qed.

Lemma round_aux_exact2 s m e :
  bounded prec emax m e = true ->
  binary_round_aux prec emax s (Zpos (xO m)) (e - 1) loc_Exact
  = S754_finite s m e.
Proof.
  intros H. pose proof (bounded_facts m e H) as [Hc Hb].
  unfold binary_round_aux, shr_fexp. cbn [Zdigits2 digits2_pos].
  assert (E : fexp prec emax (Zpos (Pos.succ (digits2_pos m)) + (e - 1))
              - (e - 1) = 1)
    by (rewrite Pos2Z.inj_succ, fexp64; lia).
  shift_by 1 E.
  cbn [shr iter_pos shr_1 shr_record_of_loc shr_m loc_of_shr_record
       round_nearest_even Zdigits2].
  replace (e - 1 + 1) with e by lia.
  assert (E2 : fexp prec emax (Zpos (digits2_pos m) + e) - e = 0)
    by (rewrite fexp64; lia).
  shift_by 0 E2. cbn [shr shr_m].
  replace (e <=? emax - prec) with true
    by (symmetry; apply Z.leb_le; exact Hb).
  reflexivity.
Qed.

Lemma div_eucl_shiftl a k :
  52 <= k ->
  Z.div_eucl (Z.shiftl a k) 4503599627370496 = (a * 2 ^ (k - 52), 0).
Proof.
  intros Hk.
  assert (E : Z.div_eucl (Z.shiftl a k) 4503599627370496
              = (Z.shiftl a k / 4503599627370496,
                 Z.shiftl a k mod 4503599627370496)).
  { unfold Z.div, Z.modulo. destruct (Z.div_eucl _ _); reflexivity. }
  rewrite E. change 4503599627370496 with (2 ^ 52).
  rewrite Z.shiftl_mul_pow2 by lia.
  replace (a * 2 ^ k) with (a * 2 ^ (k - 52) * 2 ^ 52)
    by (rewrite <- Z.mul_assoc, <- Z.pow_add_r by lia; f_equal; f_equal; lia).
  rewrite Z.div_mul, Z.mod_mul by (apply Z.pow_nonzero; lia).
  reflexivity.
Qed.

(** The quotient by [1.0 = 2^52 * 2^-52], before rounding. *)
Lemma div_core_one m e :
  bounded prec emax m e = true ->
  SFdiv_core_binary prec emax (Zpos m) e 4503599627370496 (-52)
    = (Zpos (xO m), e - 1, loc_Exact) \/
  SFdiv_core_binary prec emax (Zpos m) e 4503599627370496 (-52)
    = (Zpos m, e, loc_Exact).
Proof.
  intros H. pose proof (bounded_facts m e H) as [Hc Hb].
  unfold SFdiv_core_binary. cbn zeta.
  change (Zdigits2 4503599627370496) with 53.
  change (Zdigits2 (Zpos m)) with (Zpos (digits2_pos m)).
  change IntDef.Z.min with Z.min. change IntDef.Z.sub with Z.sub.
  change IntDef.Z.add with Z.add.
  change IntDef.Z.div_eucl with Z.div_eucl.
  change IntDef.Z.shiftl with Z.shiftl.
  rewrite fexp64.
  assert (Hd : 0 < Zpos (digits2_pos m)) by lia.
  destruct (Z.eq_dec e (-1074)) as [Ee|Ne].
  - right.
    replace (Z.min (Z.max (Zpos (digits2_pos m) + e - (53 + -52) - 53)
                          (-1074)) (e - -52))
      with e by lia.
    replace (e - -52 - e) with 52 by lia.
    rewrite (div_eucl_shiftl (Zpos m) 52) by lia.
    rewrite Z.sub_diag, Z.pow_0_r, Z.mul_1_r. reflexivity.
  - left.
    replace (Z.min (Z.max (Zpos (digits2_pos m) + e - (53 + -52) - 53)
                          (-1074)) (e - -52))
      with (e - 1) by lia.
    replace (e - -52 - (e - 1)) with 53 by lia.
    rewrite (div_eucl_shiftl (Zpos m) 53) by lia.
    rewrite Z.mul_comm. reflexivity.
Qed.

Lemma SF64div_one s m e :
  bounded prec emax m e = true ->
  SF64div (S754_finite s m e) (S754_finite false 4503599627370496 (-52))
  = S754_finite s m e.
Proof.
  intros H. unfold SF64div, SFdiv.
  destruct (div_core_one m e H) as [E|E]; rewrite E; rewrite xorb_false_r.
  - apply round_aux_exact2, H.
  - apply round_aux_exact, H.
Qed.

Lemma SF64sub_finite_self s m e :
  SF64sub (S754_finite s m e) (S754_finite s m e) = S754_zero false.
Proof.
  unfold SF64sub, SFsub. change IntDef.Z.sub with Z.sub.
  rewrite Z.sub_diag. reflexivity.
Qed.
End ExactOps.

(** [0.0 + x] turns [-0.0] into [0.0] and is [x] otherwise. *)
Definition sf_pos0 (x : spec_float) : spec_float :=
  match x with S754_zero _ => S754_zero false | _ => x end.

Lemma SF64add_zero_l x : SF64add (S754_zero false) x = sf_pos0 x.
Proof. destruct x as [s|s| |s m e]; try destruct s; reflexivity. Qed.

Lemma Prim2SF_zero : Prim2SF 0%float = S754_zero false.
Proof. vm_compute. reflexivity. Qed.

Lemma Prim2SF_float_of_nat_1 :
  Prim2SF (float_of_nat 1) = S754_finite false 4503599627370496 (-52).
Proof. vm_compute. reflexivity. Qed.

Lemma Prim2SF_infinity : Prim2SF infinity = S754_infinity false.
Proof. vm_compute. reflexivity. Qed.

(** A finite float is a signed zero or a canonical finite number. *)
Lemma float_finite_cases (p : float) :
  is_finite p = true ->
  (exists s, Prim2SF p = S754_zero s) \/
  (exists s m e, Prim2SF p = S754_finite s m e /\
                 bounded prec emax m e = true).
Proof.
  unfold is_finite, is_nan, is_infinity.
  rewrite !FloatAxioms.eqb_spec, FloatAxioms.abs_spec, Prim2SF_infinity.
  pose proof (Prim2SF_valid p) as V.
  destruct (Prim2SF p) as [s|s| |s m e]; cbn; intros H.
  - left. exists s. reflexivity.
  - destruct s; discriminate H.
  - discriminate H.
  - right. exists s, m, e. split; [reflexivity|exact V].
Qed.

(** The mean of a one-element series, and the deviations from it. *)
Lemma np_mean_singleton (p : float) :
  is_finite p = true -> Prim2SF (np_mean [p]) = sf_pos0 (Prim2SF p).
Proof.
  intros Hf.
  change (np_mean [p]) with ((0 + (0 + p)) / float_of_nat 1)%float.
  rewrite FloatAxioms.div_spec, !FloatAxioms.add_spec, Prim2SF_zero,
    Prim2SF_float_of_nat_1, !SF64add_zero_l.
  destruct (float_finite_cases p Hf) as [[s E]|[s [m [e [E B]]]]];
    rewrite E; cbn [sf_pos0]; [reflexivity|].
  apply SF64div_one, B.
Qed.

Lemma np_std_singleton (p : float) :
  is_finite p = true -> Prim2SF (np_std [p] 0) = S754_zero false.
Proof.
  intros Hf.
  change (np_std [p] 0)
    with (PrimFloat.sqrt
            ((0 + (0 + (p - np_mean [p]) * (p - np_mean [p])))
             / float_of_nat 1))%float.
  rewrite FloatAxioms.sqrt_spec, FloatAxioms.div_spec, !FloatAxioms.add_spec,
    FloatAxioms.mul_spec, FloatAxioms.sub_spec, np_mean_singleton by exact Hf.
  rewrite Prim2SF_zero, Prim2SF_float_of_nat_1, !SF64add_zero_l.
  destruct (float_finite_cases p Hf) as [[s E]|[s [m [e [E B]]]]];
    rewrite E; cbn [sf_pos0].
  - destruct s; reflexivity.
  - rewrite SF64sub_finite_self. reflexivity.
Qed.

(** ** Claims about the extremes, the mean and one-sample series *)

Definition tenth : float := 0x1.999999999999ap-4%float.

(** C5 (amended). On a non-empty series with no NaN price and as many
    times as prices, [get_email_body]'s statistics return: a price that is
    [<=] every price as the minimum and one that is [>=] every price as the
    maximum; and, as their times, the times at the first position whose
    price compares equal ([==]) to that minimum, respectively maximum. *)
Theorem email_stats_min_max_first_occurrence {T} (times : list T) prices lg :
  prices <> [] -> List.length times = List.length prices ->
  Forall (fun p => is_nan p = false) prices ->
  exists st, email_stats times prices lg = (Ret st, lg) /\
    In (st_min st) prices /\
    (forall p, In p prices -> (st_min st <=? p)%float = true) /\
    In (st_max st) prices /\
    (forall p, In p prices -> (p <=? st_max st)%float = true) /\
    (exists j, first_attaining prices (st_min st) j /\
               nth_error times j = Some (st_min_time st)) /\
    (exists j, first_attaining prices (st_max st) j /\
               nth_error times j = Some (st_max_time st)).
Proof. apply email_stats_extremes. Qed.

Lemma email_stats_min_max_first_occurrence_witness :
  exists st,
    email_stats ["t0"; "t1"; "t2"] [2; 1; 1]%float [] = (Ret st, []) /\
    In (st_min st) [2; 1; 1]%float /\
    (forall p, In p [2; 1; 1]%float -> (st_min st <=? p)%float = true) /\
    In (st_max st) [2; 1; 1]%float /\
    (forall p, In p [2; 1; 1]%float -> (p <=? st_max st)%float = true) /\
    (exists j, first_attaining [2; 1; 1]%float (st_min st) j /\
               nth_error ["t0"; "t1"; "t2"] j = Some (st_min_time st)) /\
    (exists j, first_attaining [2; 1; 1]%float (st_max st) j /\
               nth_error ["t0"; "t1"; "t2"] j = Some (st_max_time st)).
Proof.
  apply (email_stats_min_max_first_occurrence ["t0"; "t1"; "t2"]
           [2; 1; 1]%float []);
    [discriminate|reflexivity|repeat constructor].
Defined.

(** C5: with a NaN first, [min()] returns the NaN, which is not [<=] the
    other price. *)
Lemma email_stats_min_nan_not_least :
  exists st,
    email_stats ["t0"; "t1"] [PrimFloat.nan; 1]%float [] = (Ret st, []) /\
    is_nan (st_min st) = true /\ (st_min st <=? 1)%float = false.
Proof. eexists. split; [reflexivity|]. vm_compute. split; reflexivity. Qed.

(** C6 (amended). On a non-empty series with no NaN price and as many
    times as prices, the minimum of the report is [<=] its maximum. The
    binary64 mean [np.mean] is not bounded by them (see below). *)
Theorem email_stats_min_le_max {T} (times : list T) prices lg st :
  prices <> [] -> List.length times = List.length prices ->
  Forall (fun p => is_nan p = false) prices ->
  email_stats times prices lg = (Ret st, lg) ->
  (st_min st <=? st_max st)%float = true.
Proof.
  intros Hne Hlen Hnan H.
  destruct (email_stats_extremes times prices lg Hne Hlen Hnan)
    as [st' [H' [_ [Hle [Hin _]]]]].
  rewrite H in H'. injection H' as <-.
  apply Hle, Hin.
Qed.

Lemma email_stats_min_le_max_witness :
  email_stats ["t0"; "t1"] [3; 1]%float [] =
    (Ret (mk_stats 3 "t0" 1 "t1" 2 1), []) /\
  (1 <=? 3)%float = true.
Proof.
  assert (H : email_stats ["t0"; "t1"] [3; 1]%float [] =
                (Ret (mk_stats 3 "t0" 1 "t1" 2 1), []))
    by (vm_compute; reflexivity).
  split; [exact H|].
  exact (email_stats_min_le_max ["t0"; "t1"] [3; 1]%float []
           (mk_stats 3 "t0" 1 "t1" 2 1)
           ltac:(discriminate) eq_refl ltac:(repeat constructor) H).
Defined.

(** C6: for three prices [0.1], the binary64 mean is above the maximum. *)
Lemma email_stats_mean_above_max :
  exists st,
    email_stats ["t0"; "t1"; "t2"] [tenth; tenth; tenth] [] = (Ret st, []) /\
    st_max st = tenth /\ (st_max st <? st_mean st)%float = true.
Proof.
  eexists. split; [reflexivity|]. vm_compute. split; reflexivity.
Qed.

(** C7 (amended). For a one-sample series [(t, p)] with [p] finite, the
    statistics exist; the minimum and maximum are [p] at time [t], the mean
    compares equal to [p] and the standard deviation compares equal to
    [0]. *)
Theorem email_stats_singleton {T} (t : T) (p : float) lg :
  is_finite p = true ->
  exists st, email_stats [t] [p] lg = (Ret st, lg) /\
    st_min st = p /\ st_max st = p /\
    st_min_time st = t /\ st_max_time st = t /\
    (st_mean st =? p)%float = true /\ (st_std st =? 0)%float = true.
Proof.
  intros Hf. exists (mk_stats p t p t (np_mean [p]) (np_std [p] 0)).
  split; [reflexivity|].
  cbn [st_min st_max st_min_time st_max_time st_mean st_std].
  repeat split.
  - rewrite FloatAxioms.eqb_spec, np_mean_singleton by exact Hf.
    destruct (float_finite_cases p Hf) as [[s E]|[s [m [e [E B]]]]];
      rewrite E; [reflexivity|].
    unfold SFeqb. cbn [sf_pos0].
    rewrite SFcompare_key, key_cmp_refl by discriminate. reflexivity.
  - rewrite FloatAxioms.eqb_spec, np_std_singleton, Prim2SF_zero
      by exact Hf.
    reflexivity.
Qed.

Lemma email_stats_singleton_witness :
  exists st, email_stats ["t0"] [42%float] [] = (Ret st, []) /\
    st_min st = 42%float /\ st_max st = 42%float /\
    st_min_time st = "t0" /\ st_max_time st = "t0" /\
    (st_mean st =? 42)%float = true /\ (st_std st =? 0)%float = true.
Proof. apply (email_stats_singleton "t0" 42%float []). reflexivity. Defined.

(** C7: for the one price [+inf], the deviation [inf - inf] is NaN, so the
    standard deviation is NaN, not [0]. *)
Lemma email_stats_singleton_infinity_std_nan :
  exists st, email_stats ["t0"] [infinity] [] = (Ret st, []) /\
    is_nan (st_std st) = true /\ (st_std st =? 0)%float = false.
Proof. eexists. split; [reflexivity|]. vm_compute. split; reflexivity. Qed.

(** * Further properties of the program *)

(** ** [fetch_bpi] *)

(** What [fetch_bpi] returns and logs, by the fields of the response. *)
Lemma fetch_bpi_http_run (get : option http_response) lg :
  fetch_bpi_http get lg =
  match fetch_fields get with
  | Some (date, price) =>
      (Ret (FetchDictJ date price), lg +++ [LogInfo "Fetched Bitcoin price from API"])
  | None => (Ret FetchNoneNoneJ, lg +++ [LogError "Error fetching Bitcoin price"])
  end.
Proof.
  destruct get as [r|]; [|reflexivity].
  unfold fetch_bpi_http, fetch_fields, try_except, raise_for_status,
    response_json_m.
  cbn [bind ret raise].
  destruct ((400 <=? status_code r) && (status_code r <? 600))%Z;
    [reflexivity|].
  destruct (response_json r) as [j|]; [|reflexivity].
  repeat (cbn - [dict_lookup];
          match goal with
          | |- context [match dict_lookup ?k ?m with _ => _ end] =>
              destruct (dict_lookup k m)
          | |- context [match ?j with JNull => _ | _ => _ end] =>
              is_var j; destruct j
          end); reflexivity.
Qed.

(** X1. [fetch_bpi] never raises and logs exactly one entry: it returns
    [{"date": ..., "price": ...}] with the values at [time.updatedISO] and
    [bpi.USD.rate_float] when the request gets a response whose status is
    not 4xx or 5xx, whose body is JSON and where both key paths exist, and
    [(None, None)] in every other case. *)
Theorem fetch_bpi_http_outcome (get : option http_response) lg :
  fetch_bpi_http get lg =
  match fetch_fields get with
  | Some (date, price) =>
      (Ret (FetchDictJ date price), lg +++ [LogInfo "Fetched Bitcoin price from API"])
  | None => (Ret FetchNoneNoneJ, lg +++ [LogError "Error fetching Bitcoin price"])
  end.
Proof.
  apply fetch_bpi_http_run.
Qed.

(** X12. The loop's model of a fetch is exact on every response whose
    [rate_float] is a JSON float or [null] and whose [updatedISO] is a
    string, and on every failed fetch: there [fetch_bpi] returns the value
    and logs the entry that the model's [fetch_bpi] gives on the reply
    [api_reply_of get]. *)
Theorem fetch_bpi_http_refines (get : option http_response)
    (reply : api_reply) lg :
  api_reply_of get = Some reply ->
  exists r lg',
    fetch_bpi reply lg = (Ret r, lg') /\
    fetch_bpi_http get lg = (Ret (fetch_ret_json r), lg').
Proof.
  intros H. rewrite fetch_bpi_http_run. unfold api_reply_of in H.
  destruct (fetch_fields get) as [[date price]|].
  - destruct date; try discriminate H.
    destruct price; try discriminate H; injection H as <-;
      do 2 eexists; split; reflexivity.
  - injection H as <-. do 2 eexists; split; reflexivity.
Qed.

Lemma fetch_bpi_http_refines_witness :
  api_reply_of (Some (coindesk_response "2024-01-01T00:00:00+00:00" 42000.5))
  = Some (ApiOk (Some 42000.5%float) "2024-01-01T00:00:00+00:00") /\
  exists r lg',
    fetch_bpi (ApiOk (Some 42000.5%float) "2024-01-01T00:00:00+00:00") [] = (Ret r, lg') /\
    fetch_bpi_http (Some (coindesk_response "2024-01-01T00:00:00+00:00" 42000.5)) []
    = (Ret (fetch_ret_json r), lg').
Proof.
  assert (H : api_reply_of (Some (coindesk_response "2024-01-01T00:00:00+00:00" 42000.5))
              = Some (ApiOk (Some 42000.5%float) "2024-01-01T00:00:00+00:00"))
    by (vm_compute; reflexivity).
  split; [exact H|].
  exact (fetch_bpi_http_refines _ _ [] H).
Defined.

(** ** [collect_data] *)

(** The ticks of the loop: tick [k] starts at [k * sleet_in_min] minutes,
    before the end of the run exactly for the first
    [ceil(run_time_min / sleet_in_min)] ticks. *)
Lemma tick_before_end (r s k : nat) :
  0 < s -> k * (s * 60) < r * 60 <-> k < (r + s - 1) / s.
Proof.
  intros Hs. split; intros H.
  - assert (k * s < r) by nia.
    apply Nat.lt_le_trans with (S k); [lia|].
    apply Nat.div_le_lower_bound; [lia|]. nia.
  - pose proof (Nat.Div0.mul_div_le (r + s - 1) s) as Hd.
    assert (S k * s <= s * ((r + s - 1) / s)) by nia.
    nia.
Qed.

Section LoopSamples.
Context {T : Type}.
Variable tz_convert : string -> option T.
Variable replies : nat -> api_reply.
Variable sleet_in_min total_time L : nat.
Hypothesis ticks : forall k, k * (sleet_in_min * 60) < total_time <-> k < L.

(** With no failed fetch among the remaining ticks, the loop appends the
    samples of the ticks that carry a price. *)
Lemma collect_loop_samples :
  forall fuel k0 data lg,
    L - k0 < fuel ->
    (forall k, k0 <= k < L -> replies k <> ApiError) ->
    exists lg',
      collect_loop tz_convert replies fuel sleet_in_min total_time
        k0 (k0 * (sleet_in_min * 60)) data lg
      = (Ret (data +++ samples_of tz_convert replies k0 (L - k0)), lg').
Proof.
  induction fuel as [|fuel IH]; intros k0 data lg Hf Hok; [lia|].
  cbn [collect_loop].
  destruct (Nat.ltb (k0 * (sleet_in_min * 60)) total_time) eqn:Hlt.
  - apply Nat.ltb_lt, ticks in Hlt.
    replace (L - k0) with (S (L - S k0)) by lia.
    replace (k0 * (sleet_in_min * 60) + sleet_in_min * 60)
      with (S k0 * (sleet_in_min * 60)) by (cbn; lia).
    assert (Hrest : forall k, S k0 <= k < L -> replies k <> ApiError)
      by (intros k Hk; apply Hok; lia).
    cbn [samples_of].
    destruct (replies k0) as [[p|] date|] eqn:Hk.
    + unfold bind at 1. cbn. unfold convert_utc_to_timezone.
      destruct (tz_convert date) as [t|] eqn:Ht; cbn;
        (match goal with
         | |- exists _, collect_loop _ _ _ _ _ _ _ ?d ?l = _ =>
             destruct (IH (S k0) d l ltac:(lia) Hrest) as [lg' Hl]
         end;
         exists lg'; cbn [Nat.mul] in Hl; rewrite Hl, <- app_assoc;
         reflexivity).
    + cbn.
      match goal with
      | |- exists _, collect_loop _ _ _ _ _ _ _ ?d ?l = _ =>
          destruct (IH (S k0) d l ltac:(lia) Hrest) as [lg' Hl]
      end.
      exists lg'. cbn [Nat.mul] in Hl. exact Hl.
    + exfalso. apply (Hok k0); [lia|exact Hk].
  - apply Nat.ltb_ge in Hlt.
    assert (~ k0 < L) by (rewrite <- ticks; lia).
    replace (L - k0) with 0 by lia.
    exists lg. cbn. rewrite app_nil_r. reflexivity.
Qed.
End LoopSamples.

(** [collect_data] with no failed fetch returns the samples, whatever the
    log it starts from. *)
Lemma collect_data_samples {T} (tz_convert : string -> option T) replies
    (sleet_in_min run_time_min : nat) lg :
  0 < sleet_in_min ->
  (forall k, k < (run_time_min + sleet_in_min - 1) / sleet_in_min ->
             replies k <> ApiError) ->
  exists lg',
    collect_data tz_convert replies sleet_in_min run_time_min lg
    = (Ret (Some (samples_of tz_convert replies 0
                    ((run_time_min + sleet_in_min - 1) / sleet_in_min))), lg').
Proof.
  intros Hs Hok.
  set (L := (run_time_min + sleet_in_min - 1) / sleet_in_min).
  assert (HL : L <= run_time_min * 60).
  { destruct (le_lt_dec L (run_time_min * 60)) as [H|H]; [exact H|].
    apply (tick_before_end run_time_min sleet_in_min) in H; [nia|exact Hs]. }
  destruct (collect_loop_samples tz_convert replies sleet_in_min
              (run_time_min * 60) L
              (fun k => tick_before_end run_time_min sleet_in_min k Hs)
              (S (run_time_min * 60)) 0 []
              (lg +++ [LogInfo "starting to collect data"]))
    as [lg' Hrun]; [lia|intros k Hk; apply Hok; lia|].
  exists (lg' +++ [LogInfo "Finished collecting data"]).
  unfold collect_data, try_except. cbn [bind log ret].
  rewrite Nat.sub_0_r in Hrun. cbn [Nat.mul] in Hrun.
  unfold bind at 1. rewrite Hrun. reflexivity.
Qed.

(** X2. In the loop's clock model, where tick [k] starts [k * sleet_in_min]
    minutes into the run and a fetch takes no time (the model of C2): with
    a positive sampling interval and no failed fetch during the run,
    [collect_data] returns, for the [ceil(run_time_min / sleet_in_min)]
    ticks, one sample per tick whose reply has a price, in
    tick order, with that price and the converted time of the reply
    ([None] where the conversion failed); ticks whose price is [null] add
    nothing. *)
Theorem collect_data_returns_samples {T} (tz_convert : string -> option T)
    replies (sleet_in_min run_time_min : nat) :
  0 < sleet_in_min ->
  (forall k, k < (run_time_min + sleet_in_min - 1) / sleet_in_min ->
             replies k <> ApiError) ->
  exists lg,
    run (collect_data tz_convert replies sleet_in_min run_time_min)
    = (Ret (Some (samples_of tz_convert replies 0
                    ((run_time_min + sleet_in_min - 1) / sleet_in_min))), lg).
Proof. intros Hs Hok. apply collect_data_samples; assumption. Qed.

Lemma collect_data_returns_samples_witness :
  exists lg,
    run (collect_data tz_id replies_even_price 1 3)
    = (Ret (Some (samples_of tz_id replies_even_price 0 ((3 + 1 - 1) / 1))), lg).
Proof.
  apply (collect_data_returns_samples tz_id replies_even_price 1 3);
    [lia|intros k _; unfold replies_even_price; destruct (Nat.even k);
          discriminate].
Defined.

(** ** [graph_plot] *)

(** The figure of a non-empty series whose times are as many as its
    prices and that matplotlib converts. *)
Lemma graph_figure_value {T} (plot_ok : list (option T) -> list float -> bool)
    (times : list (option T)) x r n wpv ams lg :
  List.length times = List.length (x :: r) ->
  plot_ok times (x :: r) = true ->
  let mn := extreme_from min_better 1 0 x r in
  let mx := extreme_from max_better 1 0 x r in
  exists i1 i2 t1 t2,
    py_index (x :: r) mn lg = (Ret i1, lg) /\
    py_index (x :: r) mx lg = (Ret i2, lg) /\
    nth_error times i1 = Some t1 /\ nth_error times i2 = Some t2 /\
    graph_figure plot_ok times (x :: r) n wpv ams lg =
    (Ret ([PlotLine times (x :: r);
           ScatterPoint t1 (snd mn) Red "Lowest: " (snd mn);
           ScatterPoint t2 (snd mx) Green "Highest: " (snd mx);
           TextLabel t1 (snd mn) " " (snd mn) Red;
           TextLabel t2 (snd mx) " " (snd mx) Green]
          +++ (if wpv
               then price_labels 0 (fst mn) (snd mn) (fst mx) (snd mx)
                      times (x :: r)
               else [])
          +++ (if ams
               then [HorizontalLine (np_mean (x :: r)) Purple "Mean: "
                       (np_mean (x :: r));
                     HorizontalLine (np_mean (x :: r) + np_std (x :: r) 0)%float
                       Orange "Mean + Std: "
                       (np_mean (x :: r) + np_std (x :: r) 0)%float;
                     HorizontalLine (np_mean (x :: r) - np_std (x :: r) 0)%float
                       Orange "Mean - Std: "
                       (np_mean (x :: r) - np_std (x :: r) 0)%float]
               else [])
          +++ figure_tail n), lg).
Proof.
  intros Hlen Hplot mn mx.
  destruct (py_index_extreme min_better x r lg) as [i1 [H1 B1]].
  destruct (py_index_extreme max_better x r lg) as [i2 [H2 B2]].
  pose proof (py_extreme_nth min_better x r) as N1.
  pose proof (py_extreme_nth max_better x r) as N2. cbn zeta in N1, N2.
  assert (L1 : i1 < List.length times).
  { rewrite Hlen. assert (nth_error (x :: r) (fst (extreme_from min_better 1 0 x r)) <> None)
      as N by congruence. apply nth_error_Some in N. lia. }
  assert (L2 : i2 < List.length times).
  { rewrite Hlen. assert (nth_error (x :: r) (fst (extreme_from max_better 1 0 x r)) <> None)
      as N by congruence. apply nth_error_Some in N. lia. }
  destruct (nth_error times i1) as [t1|] eqn:E1;
    [|apply nth_error_None in E1; lia].
  destruct (nth_error times i2) as [t2|] eqn:E2;
    [|apply nth_error_None in E2; lia].
  exists i1, i2, t1, t2. do 4 (split; [assumption|]).
  unfold graph_figure, py_min, py_max, py_extreme, plt_plot.
  rewrite Hlen, Nat.eqb_refl, Hplot. cbn [negb].
  unfold bind, ret. cbv beta iota.
  subst mn mx.
  do 4 (cbv beta iota delta [ret raise getitem];
        rewrite ?H1, ?H2, ?E1, ?E2).
  reflexivity.
Qed.

(** [graph_figure] returns exactly under [figure_ok], and never logs. *)
Lemma graph_figure_outcome {T} (plot_ok : list (option T) -> list float -> bool)
    times prices n wpv ams lg :
  (figure_ok plot_ok times prices = true /\
   exists fig, graph_figure plot_ok times prices n wpv ams lg = (Ret fig, lg)) \/
  (figure_ok plot_ok times prices = false /\
   exists e, graph_figure plot_ok times prices n wpv ams lg = (Raise e, lg)).
Proof.
  destruct prices as [|x r].
  - right. split; [reflexivity|]. eexists. reflexivity.
  - unfold figure_ok. cbn [List.length negb Nat.eqb andb].
    destruct (Nat.eqb (List.length times) (S (List.length r))) eqn:Hl.
    + apply Nat.eqb_eq in Hl. cbn [andb].
      destruct (plot_ok times (x :: r)) eqn:Hp.
      * left. split; [reflexivity|].
        destruct (graph_figure_value plot_ok times x r n wpv ams lg Hl Hp)
          as [i1 [i2 [t1 [t2 [_ [_ [_ [_ Hf]]]]]]]].
        eexists. exact Hf.
      * right. split; [reflexivity|].
        destruct (py_index_extreme min_better x r lg) as [i1 [H1 _]].
        destruct (py_index_extreme max_better x r lg) as [i2 [H2 _]].
        exists ConversionError.
        unfold graph_figure, py_min, py_max, py_extreme, plt_plot.
        cbn [List.length] in Hl |- *. rewrite Hl, Nat.eqb_refl, Hp.
        unfold bind, ret. cbv beta iota.
        do 2 (cbv beta iota delta [ret raise]; rewrite ?H1, ?H2).
        reflexivity.
    + right. split; [reflexivity|].
      destruct (py_index_extreme min_better x r lg) as [i1 [H1 _]].
      destruct (py_index_extreme max_better x r lg) as [i2 [H2 _]].
      exists ValueError.
      unfold graph_figure, py_min, py_max, py_extreme, plt_plot.
      cbn [List.length] in Hl |- *. rewrite Hl.
      unfold bind, ret. cbv beta iota.
      do 2 (cbv beta iota delta [ret raise]; rewrite ?H1, ?H2).
      reflexivity.
Qed.

(** [list.index] does not depend on the log. *)
Lemma index_from_log (v : float) :
  forall xs j i0 lg, index_from j i0 v xs lg = (fst (index_from j i0 v xs []), lg).
Proof.
  induction xs as [|x xs IH]; intros j i0 lg; cbn; [reflexivity|].
  destruct (Nat.eqb j i0 || (x =? v)%float); [reflexivity|apply IH].
Qed.

(** What [graph_plot] does to the world. *)
Lemma graph_plot_run {T} (can_write : string -> bool)
    (plot_ok : list (option T) -> list float -> bool)
    (supported_format : string -> bool)
    times prices n name wpv ams (w : world T) :
  let fmt := fst (savefig_target name) in
  let filename := snd (savefig_target name) in
  (figure_ok plot_ok times prices
   && (supported_format fmt && can_write filename) = true /\
   exists fig,
     (forall lg, graph_figure plot_ok times prices n wpv ams lg = (Ret fig, lg)) /\
     graph_plot can_write plot_ok supported_format times prices n name wpv ams w =
     (Ret (Some true),
      mk_world (w_log w +++ [LogInfo "Graph generated and saved"])
        ((filename, FigureFile fmt fig) :: w_files w) (w_outbox w))) \/
  (figure_ok plot_ok times prices
   && (supported_format fmt && can_write filename) = false /\
   graph_plot can_write plot_ok supported_format times prices n name wpv ams w =
   (Ret None,
    mk_world (w_log w +++ [LogError "Failed to generate and save the graph"])
      (w_files w) (w_outbox w))).
Proof.
  unfold graph_plot, io_try_except, iobind, lift, savefig, write_file,
    iolog, ioret, ioraise, log.
  destruct (savefig_target name) as [fmt filename]. cbv zeta. cbn [fst snd].
  destruct (graph_figure_outcome plot_ok times prices n wpv ams (w_log w))
    as [[Hok [fig Hf]]|[Hok [e Hf]]].
  - rewrite Hf, Hok. cbn [andb].
    destruct (supported_format fmt) eqn:Hs; cbn [andb];
      [destruct (can_write filename) eqn:Hw|].
    + left. split; [reflexivity|]. exists fig. split; [|reflexivity].
      unfold figure_ok in Hok.
      destruct prices as [|x r]; [discriminate|].
      apply andb_prop in Hok as [Hok Hp]. apply andb_prop in Hok as [_ Hl].
      apply Nat.eqb_eq in Hl.
      intros lg.
      destruct (graph_figure_value plot_ok times x r n wpv ams lg Hl Hp)
        as [i1 [i2 [t1 [t2 [I1 [I2 [T1 [T2 Hlg]]]]]]]].
      destruct (graph_figure_value plot_ok times x r n wpv ams (w_log w) Hl Hp)
        as [j1 [j2 [u1 [u2 [J1 [J2 [U1 [U2 Hw0]]]]]]]].
      rewrite Hlg. rewrite Hf in Hw0. injection Hw0 as Hfig. subst fig.
      unfold py_index in I1, I2, J1, J2.
      rewrite index_from_log in I1, I2, J1, J2.
      injection I1 as I1. injection I2 as I2.
      injection J1 as J1. injection J2 as J2.
      rewrite J1 in I1. rewrite J2 in I2.
      injection I1 as <-. injection I2 as <-.
      rewrite T1 in U1. rewrite T2 in U2.
      injection U1 as <-. injection U2 as <-.
      reflexivity.
    + right. split; [reflexivity|]. destruct w. reflexivity.
    + right. split; [reflexivity|]. destruct w. reflexivity.
  - rewrite Hf, Hok. cbn [andb]. right. split; [reflexivity|].
    destruct w. reflexivity.
Qed.

(** Between two ordered non-NaN floats, [==] is the negation of [<]. *)
Lemma float_leb_eqb (x y : float) :
  is_nan x = false -> is_nan y = false -> (x <=? y)%float = true ->
  (x =? y)%float = negb (x <? y)%float /\ (y =? x)%float = negb (x <? y)%float.
Proof.
  intros Hx Hy. apply Prim2SF_not_nan in Hx, Hy.
  rewrite !FloatAxioms.eqb_spec, FloatAxioms.ltb_spec, FloatAxioms.leb_spec.
  unfold SFeqb, SFltb, SFleb. rewrite !SFcompare_key by assumption.
  rewrite (key_cmp_antisym (sf_key (Prim2SF x))).
  destruct (key_cmp _ _); cbn; intros H; try discriminate; split; reflexivity.
Qed.

(** The values [min()] and [max()] return bound a series with no NaN. *)
Lemma extreme_bounds x r :
  Forall (fun p => is_nan p = false) (x :: r) ->
  forall p, In p (x :: r) ->
    (snd (extreme_from min_better 1 0 x r) <=? p)%float = true /\
    (p <=? snd (extreme_from max_better 1 0 x r))%float = true.
Proof.
  intros Hnan p Hp.
  pose proof (py_extreme_nth min_better x r) as N1.
  pose proof (py_extreme_nth max_better x r) as N2. cbn zeta in N1, N2.
  apply nth_error_In in N1, N2. rewrite Forall_forall in Hnan.
  split.
  - apply float_not_ltb_leb; [apply Hnan, Hp|apply Hnan, N1|].
    apply (extreme_from_none_better min_better min_better_trans
             min_better_irrefl r 1 0 x p).
    destruct Hp as [<-|Hp]; [left; reflexivity|right; exact Hp].
  - apply float_not_ltb_leb; [apply Hnan, N2|apply Hnan, Hp|].
    apply (extreme_from_none_better max_better max_better_trans
             max_better_irrefl r 1 0 x p).
    destruct Hp as [<-|Hp]; [left; reflexivity|right; exact Hp].
Qed.

(** On a series bounded by [vmn] and [vmx], with [vmn] at position [imn]
    and [vmx] at [imx], the price labels are those of the points strictly
    between the two. *)
Lemma price_labels_inner {T} (imn imx : nat) (vmn vmx : float) :
  is_nan vmn = false -> is_nan vmx = false ->
  forall (ts : list (option T)) ps j,
    (forall k p, nth_error ps k = Some p ->
       is_nan p = false /\ (vmn <=? p)%float = true /\
       (p <=? vmx)%float = true /\
       (j + k = imn -> (vmn =? p)%float = true) /\
       (j + k = imx -> (vmx =? p)%float = true)) ->
    price_labels j imn vmn imx vmx ts ps = inner_labels vmn vmx ts ps.
Proof.
  intros Hmn Hmx. induction ts as [|t ts IH]; intros ps j Hps;
    [reflexivity|].
  destruct ps as [|p ps]; [reflexivity|].
  destruct (Hps 0 p eq_refl) as [Hp [Hlo [Hhi [Himn Himx]]]].
  rewrite Nat.add_0_r in Himn, Himx.
  assert (Hrest : price_labels (S j) imn vmn imx vmx ts ps
                  = inner_labels vmn vmx ts ps).
  { apply IH. intros k q Hq. replace (S j + k) with (j + S k) by lia.
    exact (Hps (S k) q Hq). }
  assert (E1 : (Nat.eqb j imn || (vmn =? p))%float = negb (vmn <? p)%float).
  { destruct (float_leb_eqb vmn p Hmn Hp Hlo) as [E _].
    destruct (Nat.eqb j imn) eqn:Ej; [|exact E].
    apply Nat.eqb_eq in Ej. rewrite <- E, (Himn Ej). reflexivity. }
  assert (E2 : (Nat.eqb j imx || (vmx =? p))%float = negb (p <? vmx)%float).
  { destruct (float_leb_eqb p vmx Hp Hmx Hhi) as [_ E].
    destruct (Nat.eqb j imx) eqn:Ej; [|exact E].
    apply Nat.eqb_eq in Ej. rewrite <- E, (Himx Ej). reflexivity. }
  cbn [price_labels]. rewrite E1, E2, Hrest.
  unfold inner_labels. cbn [combine filter fst snd].
  destruct (vmn <? p)%float, (p <? vmx)%float; reflexivity.
Qed.

(** All price labels are black text labels. *)
Lemma price_labels_black {T} imn vmn imx vmx :
  forall (ts : list (option T)) ps j,
    filter is_black_label (price_labels j imn vmn imx vmx ts ps)
    = price_labels j imn vmn imx vmx ts ps.
Proof.
  induction ts as [|t ts IH]; intros ps j; [reflexivity|].
  destruct ps as [|p ps]; [reflexivity|]. cbn [price_labels].
  destruct (_ || _); cbn [filter is_black_label]; rewrite IH; reflexivity.
Qed.

Lemma figure_ok_spec {T} (plot_ok : list (option T) -> list float -> bool)
    times prices (b : bool) :
  figure_ok plot_ok times prices && b = true <->
  prices <> [] /\ List.length times = List.length prices /\
  plot_ok times prices = true /\ b = true.
Proof.
  unfold figure_ok. rewrite !andb_true_iff, negb_true_iff, Nat.eqb_eq.
  destruct prices as [|x r]; cbn [List.length Nat.eqb].
  - split; [intros [[[H _] _] _]; discriminate|intros [H _]; congruence].
  - split; [intros [[[_ H1] H2] H3]|intros [_ [H1 [H2 H3]]]];
      repeat split; try assumption; discriminate.
Qed.


Lemma rfind_from_app (c : Ascii.ascii) (s2 : string) :
  forall s1 i f,
    rfind_from c i (s1 ++ s2) f
    = rfind_from c (i + Z.of_nat (String.length s1))%Z s2 (rfind_from c i s1 f).
Proof.
  induction s1 as [|a s1 IH]; intros i f; cbn [String.append rfind_from String.length].
  - rewrite Z.add_0_r. reflexivity.
  - rewrite IH. f_equal. lia.
Qed.

Lemma rfind_from_absent (c : Ascii.ascii) :
  forall s i f, ~ In c (list_ascii_of_string s) -> rfind_from c i s f = f.
Proof.
  induction s as [|a s IH]; intros i f Hs; cbn [rfind_from]; [reflexivity|].
  cbn [list_ascii_of_string In] in Hs.
  destruct (Ascii.eqb a c) eqn:E.
  - apply Ascii.eqb_eq in E. exfalso. apply Hs. left. exact E.
  - apply IH. intros H. apply Hs. right. exact H.
Qed.

Lemma rfind_from_ge (c : Ascii.ascii) :
  forall s i f, (f <= i)%Z -> (f <= rfind_from c i s f)%Z.
Proof.
  induction s as [|a s IH]; intros i f Hf; cbn [rfind_from]; [lia|].
  destruct (Ascii.eqb a c).
  - specialize (IH (i + 1)%Z i ltac:(lia)). lia.
  - apply IH. lia.
Qed.

Lemma drop_dots_absent (l : list Ascii.ascii) :
  ~ In dot l -> drop_dots l = l.
Proof.
  destruct l as [|a l]; intros H; [reflexivity|]. cbn [drop_dots].
  destruct (Ascii.eqb a dot) eqn:E; [|reflexivity].
  apply Ascii.eqb_eq in E. exfalso. apply H. left. exact E.
Qed.

Lemma substring_app_left (a b : string) :
  substring 0 (String.length a) (a ++ b) = a.
Proof.
  induction a as [|x a IH]; cbn; [destruct b; reflexivity|rewrite IH; reflexivity].
Qed.

Lemma substring_app_right (a b : string) :
  substring (String.length a) (String.length b) (a ++ b) = b.
Proof.
  induction a as [|x a IH]; cbn [String.length String.append substring].
  - induction b as [|y b IHb]; cbn; [reflexivity|rewrite IHb; reflexivity].
  - exact IH.
Qed.

Lemma list_ascii_of_string_app' (a b : string) :
  list_ascii_of_string (a ++ b) = (list_ascii_of_string a ++ list_ascii_of_string b)%list.
Proof. induction a as [|x a IH]; cbn; [reflexivity|rewrite IH; reflexivity]. Qed.

Lemma string_length_app (a b : string) :
  String.length (a ++ b) = String.length a + String.length b.
Proof. induction a as [|x a IH]; cbn; [reflexivity|rewrite IH; reflexivity]. Qed.

(** X13. The file [savefig] writes: a name without ['.'] gets [".png"]
    appended and is saved as PNG; a name [base.ext] in the current
    directory, where [base] has a character other than ['.'] and the
    non-empty [ext] has neither ['.'] nor ['/'], is saved under itself in
    the format [ext]. *)
Theorem savefig_target_names (name base ext : string) :
  (~ In dot (list_ascii_of_string name) ->
   savefig_target name = ("png", (name ++ ".png")%string)) /\
  (~ In slash (list_ascii_of_string base) ->
   existsb (fun a => negb (Ascii.eqb a dot)) (list_ascii_of_string base) = true ->
   ext <> EmptyString ->
   ~ In dot (list_ascii_of_string ext) -> ~ In slash (list_ascii_of_string ext) ->
   savefig_target (base ++ String dot ext) = (ext, (base ++ String dot ext)%string)).
Proof.
  split.
  - intros Hn. unfold savefig_target, splitext_ext, rfind.
    rewrite (rfind_from_absent dot name 0 (-1) Hn).
    pose proof (rfind_from_ge slash name 0 (-1) ltac:(lia)) as Hge.
    destruct (rfind_from slash 0 name (-1) <? -1)%Z eqn:Hlt;
      [apply Z.ltb_lt in Hlt; lia|].
    cbn [drop_first String.eqb]. unfold rstrip_dots.
    rewrite drop_dots_absent, rev_involutive, string_of_list_ascii_of_string;
      [reflexivity|].
    rewrite <- in_rev. exact Hn.
  - intros Hbs Hbd Hne Hed Hes.
    unfold savefig_target, splitext_ext, rfind.
    rewrite (rfind_from_absent slash (base ++ String dot ext)).
    2:{ intros H. rewrite list_ascii_of_string_app' in H.
        apply in_app_or in H as [H|H]; [exact (Hbs H)|].
        cbn [list_ascii_of_string In] in H. destruct H as [H|H]; [|exact (Hes H)].
        discriminate H. }
    rewrite rfind_from_app. cbn [rfind_from].
    rewrite Ascii.eqb_refl, rfind_from_absent by exact Hed.
    rewrite Z.add_0_l.
    destruct (-1 <? Z.of_nat (String.length base))%Z eqn:Hlt;
      [|apply Z.ltb_ge in Hlt; lia].
    change (Z.to_nat (-1 + 1)) with 0. rewrite Nat2Z.id, Nat.sub_0_r.
    rewrite substring_app_left, Hbd.
    rewrite string_length_app.
    replace (String.length base + String.length (String dot ext)
             - String.length base) with (String.length (String dot ext)) by lia.
    rewrite substring_app_right. cbn [drop_first].
    destruct ext as [|e ext']; [congruence|]. reflexivity.
Qed.

Lemma savefig_target_names_witness :
  (~ In dot (list_ascii_of_string "plainname") /\
   savefig_target "plainname" = ("png", "plainname.png")) /\
  (~ In slash (list_ascii_of_string "my.graph") /\
   existsb (fun a => negb (Ascii.eqb a dot)) (list_ascii_of_string "my.graph") = true /\
   "pdf" <> EmptyString /\
   ~ In dot (list_ascii_of_string "pdf") /\ ~ In slash (list_ascii_of_string "pdf") /\
   savefig_target ("my.graph" ++ String dot "pdf") = ("pdf", ("my.graph" ++ String dot "pdf")%string)).
Proof.
  assert (N : forall c s, existsb (Ascii.eqb c) (list_ascii_of_string s) = false ->
                          ~ In c (list_ascii_of_string s)).
  { intros c s H Hin. assert (existsb (Ascii.eqb c) (list_ascii_of_string s) = true)
      by (apply existsb_exists; exists c; split; [exact Hin|apply Ascii.eqb_refl]).
    congruence. }
  assert (H1 : ~ In dot (list_ascii_of_string "plainname")) by (apply N; reflexivity).
  assert (H2 : ~ In slash (list_ascii_of_string "my.graph")) by (apply N; reflexivity).
  assert (H3 : existsb (fun a => negb (Ascii.eqb a dot)) (list_ascii_of_string "my.graph") = true)
    by reflexivity.
  assert (H4 : "pdf" <> EmptyString) by discriminate.
  assert (H5 : ~ In dot (list_ascii_of_string "pdf")) by (apply N; reflexivity).
  assert (H6 : ~ In slash (list_ascii_of_string "pdf")) by (apply N; reflexivity).
  destruct (savefig_target_names "plainname" "my.graph" "pdf") as [A B].
  split.
  - split; [exact H1|]. exact (A H1).
  - repeat (split; [assumption|]). exact (B H2 H3 H4 H5 H6).
Defined.

(** X4. With [write_price_values], on a series with no NaN, the black
    labels of the figure are those of the points whose price lies strictly
    between the lowest and the highest price, in series order: every point
    equal to the minimum or to the maximum is left unlabelled. *)
Theorem graph_figure_price_labels {T}
    (plot_ok : list (option T) -> list float -> bool)
    times prices n ams lg :
  prices <> [] -> List.length times = List.length prices ->
  plot_ok times prices = true ->
  Forall (fun p => is_nan p = false) prices ->
  exists vmin vmax fig,
    graph_figure plot_ok times prices n true ams lg = (Ret fig, lg) /\
    In vmin prices /\ In vmax prices /\
    (forall p, In p prices ->
       (vmin <=? p)%float = true /\ (p <=? vmax)%float = true) /\
    filter is_black_label fig = inner_labels vmin vmax times prices.
Proof.
  intros Hne Hlen Hplot Hnan. destruct prices as [|x r]; [congruence|].
  destruct (graph_figure_value plot_ok times x r n true ams lg Hlen Hplot)
    as [i1 [i2 [t1 [t2 [_ [_ [_ [_ Hf]]]]]]]].
  pose proof (py_extreme_nth min_better x r) as N1.
  pose proof (py_extreme_nth max_better x r) as N2. cbn zeta in N1, N2.
  pose proof (extreme_bounds x r Hnan) as Hb.
  assert (Hn : forall p, In p (x :: r) -> is_nan p = false)
    by (apply Forall_forall; exact Hnan).
  set (mn := extreme_from min_better 1 0 x r) in *.
  set (mx := extreme_from max_better 1 0 x r) in *.
  exists (snd mn), (snd mx). eexists. split; [exact Hf|].
  split; [eapply nth_error_In; exact N1|].
  split; [eapply nth_error_In; exact N2|].
  split; [exact Hb|].
  rewrite !filter_app. cbn [filter is_black_label].
  rewrite price_labels_black.
  destruct ams; cbn [filter is_black_label app]; rewrite ?app_nil_r;
    (apply price_labels_inner;
     [apply Hn; eapply nth_error_In; exact N1
     |apply Hn; eapply nth_error_In; exact N2|]);
    intros k p Hp; cbn [Nat.add];
    (assert (Hin : In p (x :: r)) by (eapply nth_error_In; exact Hp));
    (split; [apply Hn, Hin|]);
    (split; [apply Hb, Hin|]); (split; [apply Hb, Hin|]);
    split; intros E; rewrite E in Hp;
      first [rewrite N1 in Hp | rewrite N2 in Hp]; injection Hp as <-;
      apply float_eqb_refl, Hn, Hin.
Qed.

Lemma graph_figure_price_labels_witness :
  exists vmin vmax fig,
    graph_figure (fun _ _ => true) [Some "t0"; Some "t1"; Some "t2"; Some "t3"]
      [2; 1; 3; 2.5]%float 60 true true [] = (Ret fig, []) /\
    In vmin [2; 1; 3; 2.5]%float /\ In vmax [2; 1; 3; 2.5]%float /\
    (forall p, In p [2; 1; 3; 2.5]%float ->
       (vmin <=? p)%float = true /\ (p <=? vmax)%float = true) /\
    filter is_black_label fig
    = inner_labels vmin vmax [Some "t0"; Some "t1"; Some "t2"; Some "t3"]
        [2; 1; 3; 2.5]%float.
Proof.
  apply (graph_figure_price_labels (fun _ _ => true)
           [Some "t0"; Some "t1"; Some "t2"; Some "t3"] [2; 1; 3; 2.5]%float
           60 true []);
    [discriminate|reflexivity|reflexivity|].
  repeat constructor.
Defined.

(** X5. When the figure is drawn, its red and green markers and their
    labels sit at the lowest and highest price and at the times the e-mail
    report gives them, its purple and orange lines at the report's mean and
    mean plus and minus its standard deviation. The other artists are the
    line of the series first, then the black price labels (none without
    [write_price_values]) after the markers, and last the title, the axis
    labels, the tick rotation, the layout, the grid and the legend, which
    matplotlib builds from the labels of the line, the markers and the
    mean and standard deviation lines. Drawing the figure logs nothing. *)
Theorem graph_figure_matches_email_stats {T}
    (plot_ok : list (option T) -> list float -> bool)
    times prices n wpv ams lg fig lg' :
  graph_figure plot_ok times prices n wpv ams lg = (Ret fig, lg') ->
  lg' = lg /\
  exists st labels,
    email_stats times prices lg = (Ret st, lg) /\
    fig = [PlotLine times prices;
           ScatterPoint (st_min_time st) (st_min st) Red "Lowest: " (st_min st);
           ScatterPoint (st_max_time st) (st_max st) Green "Highest: " (st_max st);
           TextLabel (st_min_time st) (st_min st) " " (st_min st) Red;
           TextLabel (st_max_time st) (st_max st) " " (st_max st) Green]
          +++ labels
          +++ (if ams
               then [HorizontalLine (st_mean st) Purple "Mean: " (st_mean st);
                     HorizontalLine (st_mean st + st_std st)%float Orange
                       "Mean + Std: " (st_mean st + st_std st)%float;
                     HorizontalLine (st_mean st - st_std st)%float Orange
                       "Mean - Std: " (st_mean st - st_std st)%float]
               else [])
          +++ figure_tail n /\
    (wpv = false -> labels = []) /\
    filter is_black_label labels = labels.
Proof.
  intros H.
  destruct (graph_figure_outcome plot_ok times prices n wpv ams lg)
    as [[Hok _]|[_ [e He]]]; [|congruence].
  assert (Hok' : figure_ok plot_ok times prices && true = true)
    by (rewrite andb_true_r; exact Hok).
  apply figure_ok_spec in Hok' as [Hne [Hlen [Hplot _]]].
  destruct prices as [|x r]; [congruence|].
  destruct (graph_figure_value plot_ok times x r n wpv ams lg Hlen Hplot)
    as [i1 [i2 [t1 [t2 [I1 [I2 [T1 [T2 Hf]]]]]]]].
  rewrite Hf in H. injection H as <- <-. split; [reflexivity|].
  destruct (email_stats_returns times (x :: r) lg Hne Hlen) as [st Hst].
  destruct (email_stats_inv times (x :: r) st lg lg Hst)
    as [_ [x' [r' [E [Hmax [Hmin [Hmean [Hstd [[j2 [J2 U2]] [j1 [J1 U1]]]]]]]]]]].
  injection E as <- <-.
  rewrite I1 in J1. injection J1 as <-. rewrite I2 in J2. injection J2 as <-.
  rewrite T1 in U1. injection U1 as ->. rewrite T2 in U2. injection U2 as ->.
  exists st, (if wpv
              then price_labels 0 (fst (extreme_from min_better 1 0 x r))
                     (snd (extreme_from min_better 1 0 x r))
                     (fst (extreme_from max_better 1 0 x r))
                     (snd (extreme_from max_better 1 0 x r)) times (x :: r)
              else []).
  split; [exact Hst|].
  rewrite Hmax, Hmin, Hmean, Hstd.
  split; [reflexivity|].
  split; [intros ->; reflexivity|].
  destruct wpv; [apply price_labels_black|reflexivity].
Qed.

Lemma graph_figure_matches_email_stats_witness :
  exists fig,
    graph_figure (fun _ _ => true) [Some "t0"; Some "t1"] [2; 1]%float 60
      true true [] = (Ret fig, []) /\
    ([] : list log_entry) = [] /\
    exists st labels,
      email_stats [Some "t0"; Some "t1"] [2; 1]%float [] = (Ret st, []) /\
      fig = [PlotLine [Some "t0"; Some "t1"] [2; 1]%float;
             ScatterPoint (st_min_time st) (st_min st) Red "Lowest: " (st_min st);
             ScatterPoint (st_max_time st) (st_max st) Green "Highest: " (st_max st);
             TextLabel (st_min_time st) (st_min st) " " (st_min st) Red;
             TextLabel (st_max_time st) (st_max st) " " (st_max st) Green]
            +++ labels
            +++ [HorizontalLine (st_mean st) Purple "Mean: " (st_mean st);
                 HorizontalLine (st_mean st + st_std st)%float Orange
                   "Mean + Std: " (st_mean st + st_std st)%float;
                 HorizontalLine (st_mean st - st_std st)%float Orange
                   "Mean - Std: " (st_mean st - st_std st)%float]
            +++ figure_tail 60 /\
      (true = false -> labels = []) /\
      filter is_black_label labels = labels.
Proof.
  eexists. split; [reflexivity|].
  exact (graph_figure_matches_email_stats (fun _ _ => true)
           [Some "t0"; Some "t1"] [2; 1]%float 60 true true [] _ []
           eq_refl).
Defined.

(** ** The files and the mail of [main] *)

(** What [save_to_json] does to the world. *)
Lemma save_to_json_run {T} (can_write : string -> bool) data name (w : world T) :
  save_to_json can_write data name w =
  (Ret (if can_write name then Some true else None),
   mk_world (w_log w +++ [if can_write name then LogInfo "Data saved"
                          else LogError "Error saving data to JSON file"])
     (if can_write name then (name, JsonDump data) :: w_files w else w_files w)
     (w_outbox w)).
Proof.
  unfold save_to_json, io_try_except, iobind, write_file, iolog, lift, log,
    ioret.
  destruct (can_write name); destruct w; reflexivity.
Qed.

(** What [send_email] does to the world. *)
Lemma send_email_run {T} smtp_login smtp_accepts (msg : mail T) user pass
    recipient (w : world T) :
  send_email smtp_login smtp_accepts msg user pass recipient w =
  (Ret (if smtp_login user pass && smtp_accepts then Some true else None),
   mk_world
     (w_log w +++
      (if smtp_login user pass
       then LogInfo "connected to e-mail server successfully" ::
            (if smtp_accepts then [LogInfo "Email sent successfully"]
             else [LogError "Error sending email"])
       else [LogError "Error sending email"]))
     (w_files w)
     (w_outbox w +++
      (if smtp_login user pass && smtp_accepts then [(user, recipient, msg)]
       else []))).
Proof.
  unfold send_email, io_try_except, iobind, iolog, lift, log, ioret, ioraise.
  destruct w as [lg fs ob].
  destruct (smtp_login user pass), smtp_accepts; cbn;
    rewrite ?app_nil_r, <- ?app_assoc; reflexivity.
Qed.

(** What attaching the files does to the message and to the world. *)
Lemma attach_all_run {T} :
  forall atts (msg : mail T) (w : world T),
    attach_all msg atts w =
    (Ret (mk_mail (mail_from msg) (mail_to msg) (mail_subject msg)
            (mail_parts msg +++ flat_map (attachment_part (w_files w)) atts)),
     mk_world (w_log w +++ flat_map (attachment_error (w_files w)) atts)
       (w_files w) (w_outbox w)).
Proof.
  induction atts as [|a atts IH]; intros msg w.
  - destruct msg, w. cbn. rewrite !app_nil_r. reflexivity.
  - cbn [attach_all].
    unfold iobind, io_try_except, read_file, iolog, lift, log, ioret.
    unfold attachment_part at 1, attachment_error at 1.
    destruct w as [lg fs ob]. cbn [w_log w_files w_outbox flat_map].
    destruct (file_lookup a fs) as [c|] eqn:Hc; cbn beta iota;
      rewrite IH; cbn [mail_from mail_to mail_subject mail_parts
                       w_log w_files w_outbox];
      rewrite <- ?app_assoc; cbn [app]; reflexivity.
Qed.

Lemma bind_log_free {A B} (m : M A) (k : A -> M B) :
  log_free m -> (forall a, log_free (k a)) -> log_free (bind m k).
Proof.
  intros Hm Hk lg. unfold bind. rewrite (Hm lg), (Hm []).
  destruct (fst (m [])) as [a| e|]; cbn; [|reflexivity|reflexivity].
  rewrite (Hk a lg). reflexivity.
Qed.

Lemma email_stats_log_free {T} (times : list T) prices :
  log_free (email_stats times prices).
Proof.
  assert (Hr : forall A (a : A), log_free (ret a)) by (intros A a lg; reflexivity).
  assert (Hg : forall A (xs : list A) i, log_free (getitem xs i))
    by (intros A xs i lg; unfold getitem; destruct (nth_error xs i); reflexivity).
  assert (He : forall b xs, log_free (py_extreme b xs))
    by (intros b xs lg; destruct xs; reflexivity).
  assert (Hi : forall xs o, log_free (py_index xs o))
    by (intros xs o lg; apply index_from_log).
  unfold email_stats, py_max, py_min.
  repeat (apply bind_log_free;
          [first [apply He|apply Hi|apply Hg|apply Hr]|intros ?]).
  apply Hr.
Qed.

(** [get_email_body] on a non-empty series with as many times as prices
    returns one body, whatever the log. *)
Lemma get_email_body_returns {T} n (times : list T) prices :
  prices <> [] -> List.length times = List.length prices ->
  exists body, forall lg, get_email_body n times prices lg = (Ret body, lg).
Proof.
  intros Hne Hlen.
  destruct (email_stats_returns times prices [] Hne Hlen) as [st Hst].
  exists (email_html n (email_rows st)). intros lg.
  unfold get_email_body, report_rows, bind. cbv beta.
  rewrite (email_stats_log_free times prices lg), Hst. reflexivity.
Qed.

(** [savefig] keeps the name of the graph file and saves it as PNG. *)
Lemma graph_file_target : savefig_target GRAPH_FILE_NAME = ("png", GRAPH_FILE_NAME).
Proof. vm_compute. reflexivity. Qed.

(** A run of [main] in which no fetch fails and some tick has a price. *)
Lemma main_run_ok {T} (can_write : string -> bool)
    (plot_ok : list (option T) -> list float -> bool)
    (supported_format : string -> bool)
    (smtp_login : string -> string -> bool) (smtp_accepts : bool)
    (user pass rcpt : string) (tz_convert : string -> option T)
    (replies : nat -> api_reply) (w : world T) :
  (forall k, k < 60 -> replies k <> ApiError) ->
  samples_of tz_convert replies 0 60 <> [] ->
  let d := samples_of tz_convert replies 0 60 in
  let times := map s_time d in
  let prices := map s_price d in
  let files1 := if can_write JSON_FILE_NAME
                then (JSON_FILE_NAME, JsonDump (Some d)) :: w_files w
                else w_files w in
  exists body lg' files',
    (forall lg, get_email_body TOTAL_RUN_TIME_MIN times prices lg
                = (Ret body, lg)) /\
    main can_write plot_ok supported_format smtp_login smtp_accepts user pass rcpt
      tz_convert replies w =
    (Ret tt,
     mk_world lg' files'
       (w_outbox w +++
        (if smtp_login user pass && smtp_accepts
         then [(user, rcpt,
                mk_mail user rcpt "Bitcoin price analysis"
                  (HtmlPart body ::
                   flat_map (attachment_part files')
                     [JSON_FILE_NAME; GRAPH_FILE_NAME]))]
         else []))) /\
    ((plot_ok times prices && (supported_format "png" && can_write GRAPH_FILE_NAME) = true /\
      exists fig,
        (forall lg, graph_figure plot_ok times prices TOTAL_RUN_TIME_MIN
                      false true lg = (Ret fig, lg)) /\
        files' = (GRAPH_FILE_NAME, FigureFile "png" fig) :: files1) \/
     (plot_ok times prices && (supported_format "png" && can_write GRAPH_FILE_NAME) = false /\
      files' = files1)).
Proof.
  intros Hok Hne d times prices files1.
  destruct (collect_data_samples tz_convert replies 1 60 (w_log w))
    as [lg1 Hcd]; [lia|exact Hok|].
  change ((60 + 1 - 1) / 1) with 60 in Hcd. fold d in Hcd.
  assert (Hpne : prices <> [])
    by (unfold prices; intros H; apply map_eq_nil in H; exact (Hne H)).
  assert (Hlen : List.length times = List.length prices)
    by (unfold times, prices; rewrite !length_map; reflexivity).
  assert (Hfig : figure_ok plot_ok times prices = plot_ok times prices).
  { unfold figure_ok. rewrite Hlen, Nat.eqb_refl.
    destruct prices; [congruence|reflexivity]. }
  destruct (get_email_body_returns TOTAL_RUN_TIME_MIN times prices Hpne Hlen)
    as [body Hbody].
  exists body.
  unfold main, iobind at 1, lift at 1.
  change (collect_data tz_convert replies SAMPLING_TIME_MIN TOTAL_RUN_TIME_MIN)
    with (collect_data tz_convert replies 1 60).
  rewrite Hcd. cbv beta iota zeta.
  unfold iobind at 1. rewrite save_to_json_run. cbv beta iota zeta.
  cbn [w_log w_files w_outbox].
  unfold iobind at 1, ioret at 1. cbv beta iota zeta.
  fold times prices.
  fold files1. unfold iobind at 1.
  pose proof (graph_plot_run can_write plot_ok supported_format times prices
                TOTAL_RUN_TIME_MIN GRAPH_FILE_NAME false true
                (mk_world
                   (lg1 +++ [if can_write JSON_FILE_NAME then LogInfo "Data saved"
                             else LogError "Error saving data to JSON file"])
                   files1 (w_outbox w))) as Hgp.
  cbv zeta in Hgp. rewrite graph_file_target in Hgp. cbn [fst snd] in Hgp.
  destruct Hgp as [[Hc [fig [Hf Hg]]]|[Hc Hg]];
    rewrite Hg; cbv beta iota zeta;
    unfold iobind at 1, lift at 1; cbn [w_log w_files w_outbox];
    rewrite Hbody; cbv beta iota zeta; cbn [w_log w_files w_outbox];
    unfold iobind at 1; rewrite attach_all_run; cbv beta iota zeta;
    cbn [w_log w_files w_outbox mail_from mail_to mail_subject mail_parts];
    unfold iobind at 1; rewrite send_email_run; cbv beta iota zeta;
    cbn [w_log w_files w_outbox]; unfold ioret;
    (do 2 eexists; split; [exact Hbody|split; [reflexivity|]]);
    rewrite Hfig in Hc.
  - left. split; [exact Hc|]. exists fig. split; [exact Hf|reflexivity].
  - right. split; [exact Hc|reflexivity].
Qed.

(** X6. Attaching the files never raises and writes no file: every file of
    the list that can be read is added to the message, in list order, under
    the part of its path after the last ['/']; every file that cannot be
    read adds one error to the log and nothing to the message. *)
Theorem attach_all_parts {T} (atts : list string) (msg : mail T) (w : world T) :
  attach_all msg atts w =
  (Ret (mk_mail (mail_from msg) (mail_to msg) (mail_subject msg)
          (mail_parts msg +++ flat_map (attachment_part (w_files w)) atts)),
   mk_world (w_log w +++ flat_map (attachment_error (w_files w)) atts)
     (w_files w) (w_outbox w)).
Proof. apply attach_all_run. Qed.

Lemma string_app_assoc (a b c : string) : ((a ++ b) ++ c)%string = (a ++ (b ++ c))%string.
Proof. induction a as [|x a IH]; cbn; [reflexivity|rewrite IH; reflexivity]. Qed.

Lemma string_app_empty_r (a : string) : (a ++ "")%string = a.
Proof. induction a as [|x a IH]; cbn; [reflexivity|rewrite IH; reflexivity]. Qed.

Lemma last_component_from_slash (s2 : string) :
  forall s1 acc,
    last_component_from acc (s1 ++ String (Ascii.ascii_of_nat 47) s2)%string
    = last_component_from "" s2.
Proof.
  induction s1 as [|c s1 IH]; intros acc; cbn [String.append last_component_from].
  - reflexivity.
  - destruct (Ascii.eqb c (Ascii.ascii_of_nat 47)); apply IH.
Qed.

Lemma last_component_from_plain (s : string) :
  ~ In (Ascii.ascii_of_nat 47) (list_ascii_of_string s) ->
  forall acc, last_component_from acc s = (acc ++ s)%string.
Proof.
  induction s as [|c s IH]; intros Hs acc; cbn [last_component_from].
  - rewrite string_app_empty_r. reflexivity.
  - cbn [list_ascii_of_string In] in Hs.
    destruct (Ascii.eqb c (Ascii.ascii_of_nat 47)) eqn:Hc.
    + apply Ascii.eqb_eq in Hc. exfalso. apply Hs. left. exact Hc.
    + rewrite IH by (intros H; apply Hs; right; exact H).
      rewrite string_app_assoc. reflexivity.
Qed.

(** X7. The name an attachment gets is its path after the last ['/']: a
    name without ['/'] is kept whole, and whatever directory precedes it is
    dropped. *)
Theorem last_component_basename (dir name : string) :
  ~ In (Ascii.ascii_of_nat 47) (list_ascii_of_string name) ->
  last_component name = name /\
  last_component (dir ++ String (Ascii.ascii_of_nat 47) name)%string = name.
Proof.
  intros Hn. unfold last_component.
  rewrite last_component_from_slash, !(last_component_from_plain name Hn).
  split; reflexivity.
Qed.

Lemma last_component_basename_witness :
  ~ In (Ascii.ascii_of_nat 47) (list_ascii_of_string "bitcoin_prices.json") /\
  last_component "bitcoin_prices.json" = "bitcoin_prices.json" /\
  last_component ("out" ++ String (Ascii.ascii_of_nat 47) "bitcoin_prices.json")%string
  = "bitcoin_prices.json".
Proof.
  assert (H : ~ In (Ascii.ascii_of_nat 47) (list_ascii_of_string "bitcoin_prices.json"))
    by (cbn; intros H; repeat destruct H as [H|H]; try discriminate H; exact H).
  split; [exact H|]. apply (last_component_basename "out" "bitcoin_prices.json" H).
Defined.

(** X8. In the loop's clock model (60 ticks, a fetch takes no time), when
    no fetch fails, every fetched [rate_float] is a JSON float or [null]
    (the replies [api_reply] represents, see X12) and some reply carries a
    price, [main] returns normally whatever the file system, matplotlib and
    the mail server do. It sends at
    most one message: exactly one, to [RECIPIENT] from [EMAIL_USER], when
    the login and the sending succeed, and none otherwise. That message has
    the subject ["Bitcoin price analysis"], the e-mail body of the collected
    series as HTML, then the JSON file and the graph file as found on disk
    at the end of the run, each when it exists. *)
Theorem main_sends_report {T} (can_write : string -> bool)
    (plot_ok : list (option T) -> list float -> bool)
    (supported_format : string -> bool)
    (smtp_login : string -> string -> bool) (smtp_accepts : bool)
    (user pass rcpt : string) (tz_convert : string -> option T)
    (replies : nat -> api_reply) (w : world T) :
  (forall k, k < 60 -> replies k <> ApiError) ->
  samples_of tz_convert replies 0 60 <> [] ->
  exists body w',
    (forall lg, get_email_body TOTAL_RUN_TIME_MIN
                  (map s_time (samples_of tz_convert replies 0 60))
                  (map s_price (samples_of tz_convert replies 0 60)) lg
                = (Ret body, lg)) /\
    main can_write plot_ok supported_format smtp_login smtp_accepts user pass rcpt
      tz_convert replies w = (Ret tt, w') /\
    w_outbox w' =
    w_outbox w +++
    (if smtp_login user pass && smtp_accepts
     then [(user, rcpt,
            mk_mail user rcpt "Bitcoin price analysis"
              (HtmlPart body ::
               flat_map (attachment_part (w_files w'))
                 [JSON_FILE_NAME; GRAPH_FILE_NAME]))]
     else []).
Proof.
  intros Hok Hne.
  destruct (main_run_ok can_write plot_ok supported_format smtp_login smtp_accepts user pass
              rcpt tz_convert replies w Hok Hne)
    as [body [lg' [files' [Hbody [Hmain _]]]]].
  exists body, (mk_world lg' files'
                  (w_outbox w +++
                   (if smtp_login user pass && smtp_accepts
                    then [(user, rcpt,
                           mk_mail user rcpt "Bitcoin price analysis"
                             (HtmlPart body ::
                              flat_map (attachment_part files')
                                [JSON_FILE_NAME; GRAPH_FILE_NAME]))]
                    else []))).
  split; [exact Hbody|]. split; [exact Hmain|reflexivity].
Qed.

Lemma main_sends_report_witness :
  exists body w',
    (forall lg, get_email_body TOTAL_RUN_TIME_MIN
                  (map s_time (samples_of tz_id replies_even_price 0 60))
                  (map s_price (samples_of tz_id replies_even_price 0 60)) lg
                = (Ret body, lg)) /\
    main always_write always_plot agg_formats login_ok true "me" "pw" "you"
      tz_id replies_even_price empty_world = (Ret tt, w') /\
    w_outbox w' =
    w_outbox empty_world +++
    (if login_ok "me" "pw" && true
     then [("me", "you",
            mk_mail "me" "you" "Bitcoin price analysis"
              (HtmlPart body ::
               flat_map (attachment_part (w_files w'))
                 [JSON_FILE_NAME; GRAPH_FILE_NAME]))]
     else []).
Proof.
  apply (main_sends_report always_write always_plot agg_formats login_ok true "me" "pw"
           "you" tz_id replies_even_price empty_world).
  - intros k _. unfold replies_even_price. destruct (Nat.even k); discriminate.
  - vm_compute. discriminate.
Defined.

(** X9. In the loop's clock model (60 ticks, a fetch takes no time), when
    no fetch fails, every fetched [rate_float] is a JSON float or [null]
    (see X12) and some reply carries a price, after [main] the JSON file
    holds the collected series if it could be written, and is otherwise
    left as it was; the graph file ["bitcoin_price_graph.png"] holds the
    PNG figure of the series (with the mean and standard deviation lines,
    without price labels) if matplotlib converts the times, supports PNG
    and the file could be written, and is otherwise left as it was. *)
Theorem main_output_files {T} (can_write : string -> bool)
    (plot_ok : list (option T) -> list float -> bool)
    (supported_format : string -> bool)
    (smtp_login : string -> string -> bool) (smtp_accepts : bool)
    (user pass rcpt : string) (tz_convert : string -> option T)
    (replies : nat -> api_reply) (w : world T) :
  (forall k, k < 60 -> replies k <> ApiError) ->
  samples_of tz_convert replies 0 60 <> [] ->
  exists w',
    main can_write plot_ok supported_format smtp_login smtp_accepts user pass rcpt
      tz_convert replies w = (Ret tt, w') /\
    file_lookup JSON_FILE_NAME (w_files w') =
    (if can_write JSON_FILE_NAME
     then Some (JsonDump (Some (samples_of tz_convert replies 0 60)))
     else file_lookup JSON_FILE_NAME (w_files w)) /\
    (plot_ok (map s_time (samples_of tz_convert replies 0 60))
             (map s_price (samples_of tz_convert replies 0 60))
     && (supported_format "png" && can_write GRAPH_FILE_NAME) = true ->
     exists fig,
       (forall lg, graph_figure plot_ok
                     (map s_time (samples_of tz_convert replies 0 60))
                     (map s_price (samples_of tz_convert replies 0 60))
                     TOTAL_RUN_TIME_MIN false true lg = (Ret fig, lg)) /\
       file_lookup GRAPH_FILE_NAME (w_files w') = Some (FigureFile "png" fig)) /\
    (plot_ok (map s_time (samples_of tz_convert replies 0 60))
             (map s_price (samples_of tz_convert replies 0 60))
     && (supported_format "png" && can_write GRAPH_FILE_NAME) = false ->
     file_lookup GRAPH_FILE_NAME (w_files w') =
     file_lookup GRAPH_FILE_NAME (w_files w)).
Proof.
  intros Hok Hne.
  destruct (main_run_ok can_write plot_ok supported_format smtp_login smtp_accepts user pass
              rcpt tz_convert replies w Hok Hne)
    as [body [lg' [files' [_ [Hmain Hfiles]]]]].
  eexists. split; [exact Hmain|]. cbn [w_files].
  destruct Hfiles as [[Hc [fig [Hf ->]]]|[Hc ->]].
  - split; [|split].
    + cbn [file_lookup].
      change (String.eqb JSON_FILE_NAME GRAPH_FILE_NAME) with false.
      destruct (can_write JSON_FILE_NAME); reflexivity.
    + intros _. exists fig. split; [exact Hf|reflexivity].
    + intros H. congruence.
  - split; [|split].
    + destruct (can_write JSON_FILE_NAME); reflexivity.
    + intros H. congruence.
    + intros _. destruct (can_write JSON_FILE_NAME); reflexivity.
Qed.

Lemma main_output_files_witness :
  exists w',
    main always_write always_plot agg_formats login_ok true "me" "pw" "you"
      tz_id replies_even_price empty_world = (Ret tt, w') /\
    file_lookup JSON_FILE_NAME (w_files w') =
    (if always_write JSON_FILE_NAME
     then Some (JsonDump (Some (samples_of tz_id replies_even_price 0 60)))
     else file_lookup JSON_FILE_NAME (w_files empty_world)) /\
    (always_plot (map s_time (samples_of tz_id replies_even_price 0 60))
                 (map s_price (samples_of tz_id replies_even_price 0 60))
     && (agg_formats "png" && always_write GRAPH_FILE_NAME) = true ->
     exists fig,
       (forall lg, graph_figure always_plot
                     (map s_time (samples_of tz_id replies_even_price 0 60))
                     (map s_price (samples_of tz_id replies_even_price 0 60))
                     TOTAL_RUN_TIME_MIN false true lg = (Ret fig, lg)) /\
       file_lookup GRAPH_FILE_NAME (w_files w') = Some (FigureFile "png" fig)) /\
    (always_plot (map s_time (samples_of tz_id replies_even_price 0 60))
                 (map s_price (samples_of tz_id replies_even_price 0 60))
     && (agg_formats "png" && always_write GRAPH_FILE_NAME) = false ->
     file_lookup GRAPH_FILE_NAME (w_files w') =
     file_lookup GRAPH_FILE_NAME (w_files empty_world)).
Proof.
  apply (main_output_files always_write always_plot agg_formats login_ok true "me" "pw"
           "you" tz_id replies_even_price empty_world).
  - intros k _. unfold replies_even_price. destruct (Nat.even k); discriminate.
  - vm_compute. discriminate.
Defined.

(** [collect_data] returns [None] after a failed fetch on a tick it
    reaches, whatever the log it starts from. *)
Lemma collect_data_none_from {T} (tz_convert : string -> option T) replies
    (sleet_in_min run_time_min k : nat) lg :
  0 < sleet_in_min -> k * sleet_in_min < run_time_min ->
  replies k = ApiError ->
  exists lg',
    collect_data tz_convert replies sleet_in_min run_time_min lg
    = (Ret None, lg').
Proof.
  intros Hs Hk Hr.
  destruct (collect_loop_raises tz_convert replies sleet_in_min
              (run_time_min * 60) k 0 0 (S (run_time_min * 60)) []
              (lg +++ [LogInfo "starting to collect data"])) as [lg' Hrun];
    [exact Hr|nia|nia|].
  eexists. unfold collect_data, try_except. cbn [bind log ret].
  unfold bind at 1. rewrite Hrun. reflexivity.
Qed.

(** X10. If a fetch fails on one of the 60 ticks, [main] raises
    [TypeError] (iterating over the [None] that [collect_data] returned)
    after writing [null] to the JSON file when it can be written: no graph
    file is written and no mail is sent. *)
Theorem main_fetch_failure_raises {T} (can_write : string -> bool)
    (plot_ok : list (option T) -> list float -> bool)
    (supported_format : string -> bool)
    (smtp_login : string -> string -> bool) (smtp_accepts : bool)
    (user pass rcpt : string) (tz_convert : string -> option T)
    (replies : nat -> api_reply) (w : world T) (k : nat) :
  k < 60 -> replies k = ApiError ->
  exists lg',
    main can_write plot_ok supported_format smtp_login smtp_accepts user pass rcpt
      tz_convert replies w =
    (Raise TypeError,
     mk_world lg'
       (if can_write JSON_FILE_NAME
        then (JSON_FILE_NAME, JsonDump None) :: w_files w
        else w_files w)
       (w_outbox w)).
Proof.
  intros Hk Hr.
  destruct (collect_data_none_from tz_convert replies 1 60 k (w_log w))
    as [lg1 Hcd]; [lia|lia|exact Hr|].
  unfold main, iobind at 1, lift at 1.
  change (collect_data tz_convert replies SAMPLING_TIME_MIN TOTAL_RUN_TIME_MIN)
    with (collect_data tz_convert replies 1 60).
  rewrite Hcd. cbv beta iota zeta.
  unfold iobind at 1. rewrite save_to_json_run. cbv beta iota zeta.
  cbn [w_log w_files w_outbox].
  unfold iobind at 1, ioraise. cbv beta iota zeta.
  eexists. reflexivity.
Qed.

Lemma main_fetch_failure_raises_witness :
  exists lg',
    main always_write always_plot agg_formats login_ok true "me" "pw" "you"
      tz_id replies_fail_second empty_world =
    (Raise TypeError,
     mk_world lg'
       (if always_write JSON_FILE_NAME
        then (JSON_FILE_NAME, JsonDump None) :: w_files empty_world
        else w_files empty_world)
       (w_outbox empty_world)).
Proof.
  apply (main_fetch_failure_raises always_write always_plot agg_formats login_ok true
           "me" "pw" "you" tz_id replies_fail_second empty_world 1);
    [lia|reflexivity].
Defined.



